(** * Shallow embedding of the price comparison core of the
    CloudAnalytics API gateway (app/compare.py, app/aws.py, app/azure.py). *)

From Stdlib Require Import List String Ascii QArith ZArith Bool Lia.
Import ListNotations.
Open Scope string_scope.

(** ** Python floats

    A Python [float] as the code meets it: a finite value (a rational) or
    [nan] (what [float("nan")] yields).  Comparisons follow IEEE and Python:
    every comparison involving [nan] is [False]. *)
Inductive pyfloat : Type :=
| Fin (q : Q)
| NaN.

Definition qlt (a b : Q) : bool := negb (Qle_bool b a).

(** [a < b] on Python floats. *)
Definition py_lt (a b : pyfloat) : bool :=
  match a, b with
  | Fin x, Fin y => qlt x y
  | _, _ => false
  end.

(** [math.isnan]. *)
Definition py_isnan (v : pyfloat) : bool :=
  match v with NaN => true | Fin _ => false end.

(** The builtin [min] on a non-empty list [x :: l]: the running minimum is
    replaced by an item exactly when [item < current]. *)
Definition py_min (x : pyfloat) (l : list pyfloat) : pyfloat :=
  fold_left (fun cur v => if py_lt v cur then v else cur) l x.

(** ** Aggregator: [_min_nonzero_or_none]

    The argument is a [List[float]]: the [isinstance] and [is not None]
    tests hold of every element, so both comprehension filters keep exactly
    the elements selected below. *)
Definition _min_nonzero_or_none (vals : list pyfloat) : option pyfloat :=
  let candidates := filter (fun v => py_lt (Fin 0) v) vals in
  match candidates with
  | c :: cs => Some (py_min c cs)
  | [] =>
      match vals with
      | v :: vs => Some (py_min v vs)
      | [] => None
      end
  end.

(** ** Display fallback: [_fallback_zero] *)
Definition _fallback_zero (v : option pyfloat) : pyfloat :=
  match v with
  | Some x => if negb (py_isnan x) then x else Fin 0
  | None => Fin 0
  end.

(** ** Comparator: [_cheapest] *)
Definition _cheapest (a z : option pyfloat) : string :=
  match a, z with
  | None, None => "Same"
  | None, _ => "Azure"
  | _, None => "AWS"
  | Some x, Some y =>
      if py_lt x y then "AWS"
      else if py_lt y x then "Azure"
      else "Same"
  end.

(** ** Region mapping: [map_azure_region] *)

(** [str.isspace] on ASCII characters: tab, LF, VT, FF, CR, the four
    separators 0x1c..0x1f, and space. *)
Definition is_space (c : ascii) : bool :=
  let n := nat_of_ascii c in
  ((9 <=? n) && (n <=? 13))%nat || ((28 <=? n) && (n <=? 32))%nat.

Fixpoint lstrip_list (l : list ascii) : list ascii :=
  match l with
  | c :: r => if is_space c then lstrip_list r else l
  | [] => []
  end.

(** [str.strip()]. *)
Definition strip (s : string) : string :=
  string_of_list_ascii
    (rev (lstrip_list (rev (lstrip_list (list_ascii_of_string s))))).

(** Python truthiness of a [str]: non-empty. *)
Definition str_truthy (s : string) : bool :=
  match s with EmptyString => false | _ => true end.

Definition AWS_TO_AZURE_REGION : list (string * string) := [
  ("us-east-1", "eastus");
  ("us-east-2", "eastus2");
  ("us-west-1", "westus");
  ("us-west-2", "westus2");
  ("ca-central-1", "canadacentral");
  ("eu-west-1", "westeurope");
  ("eu-west-2", "uksouth");
  ("eu-west-3", "francecentral");
  ("eu-north-1", "northeurope");
  ("eu-central-1", "germanywestcentral");
  ("ap-south-1", "centralindia");
  ("ap-southeast-1", "southeastasia");
  ("ap-southeast-2", "australiaeast");
  ("ap-northeast-1", "japaneast");
  ("ap-northeast-2", "koreacentral");
  ("ap-east-1", "eastasia");
  ("sa-east-1", "brazilsouth")
].

(** [dict.get(k, default)] on a dict given by its (duplicate-free) items. *)
Fixpoint dict_get (d : list (string * string)) (k default : string) : string :=
  match d with
  | (k', v) :: r => if String.eqb k k' then v else dict_get r k default
  | [] => default
  end.

Definition map_azure_region (aws_region : string) (azure_region : option string)
  : string :=
  match azure_region with
  | Some az =>
      if str_truthy az && str_truthy (strip az) then strip az
      else dict_get AWS_TO_AZURE_REGION (strip aws_region) (strip aws_region)
  | None => dict_get AWS_TO_AZURE_REGION (strip aws_region) (strip aws_region)
  end.

(** ** Raw feed items, as [_min_price_from_aws] and [_min_price_from_azure]
    read the JSON of the local [/aws/prices?raw=true] and [/azure/prices]
    endpoints.

    The value of a ["USD"] or ["retailPrice"] key: [float(v)] either returns
    a float or raises. *)
Inductive usd_val : Type :=
| Parsed (f : pyfloat)
| Unparseable.

(** One entry of ["priceDimensions"]. *)
Record dim : Type := mkDim {
  unit : option string;
  usd : option usd_val               (** ["pricePerUnit"]["USD"], if the key is there *)
}.

(** An AWS PriceList element: its ["terms"]["OnDemand"] dict of terms, each
    term given by its ["priceDimensions"] dict (missing keys read as [{}]). *)
Record aws_item : Type := mkAwsItem {
  ondemand : list (string * list (string * dim))
}.

(** An Azure retail price item: its ["retailPrice"], if the key is there. *)
Record az_item : Type := mkAzItem {
  retailPrice : option usd_val
}.

(** The USD fields of an item, in the iteration order of the two nested loops. *)
Definition usd_fields (it : aws_item) : list (option usd_val) :=
  flat_map (fun t => map (fun d => usd (snd d)) (snd t)) (ondemand it).

(** The body of the [try] over one item: every present USD value is appended
    as [float(usd)]; the first one [float] rejects raises, and the [except]
    moves on to the next item, keeping what was appended before. *)
Fixpoint collect_until_error (l : list (option usd_val)) : list pyfloat :=
  match l with
  | [] => []
  | None :: r => collect_until_error r
  | Some (Parsed f) :: r => f :: collect_until_error r
  | Some Unparseable :: _ => []
  end.

Definition aws_item_prices (it : aws_item) : list pyfloat :=
  collect_until_error (usd_fields it).

(** The Azure loop: an item whose price [float] rejects is skipped alone. *)
Fixpoint az_prices (items : list az_item) : list pyfloat :=
  match items with
  | [] => []
  | it :: r =>
      match retailPrice it with
      | Some (Parsed f) => f :: az_prices r
      | _ => az_prices r
      end
  end.

(** ** Calls to the local provider endpoints

    A keyword argument value, as the f-string renders it into the query. *)
Inductive pval : Type :=
| PStr (s : string)
| PInt (n : Z).

Definition params := list (string * option pval).

(** ["&".join(f"{k}={v}" for k, v in params.items() if v is not None)]:
    the query, kept as its list of pairs. *)
Definition query (ps : params) : list (string * pval) :=
  flat_map (fun kv => match snd kv with Some v => [(fst kv, v)] | None => [] end) ps.

(** What [await client.get(url)] gives: a response, or an exception of the
    client (timeout, connection error), which nothing in compare.py catches. *)
Inductive outcome (R : Type) : Type :=
| Transport_error
| Response (status : Z) (body : R).
Arguments Transport_error {R}.
Arguments Response {R} status body.

Inductive call : Type :=
| AwsCall (q : list (string * pval))
| AzCall (q : list (string * pval)).

Inductive exc : Type :=
| HTTPError (status : Z)       (** an [HTTPException], or FastAPI's 422 *)
| ClientRaised.                (** an exception of [client.get] *)

Inductive result (A : Type) : Type :=
| Ok (a : A)
| Err (e : exc).
Arguments Ok {A} a.
Arguments Err {A} e.

(** The effects of an endpoint: the calls it issues, in order, and its
    result or the exception it raises. *)
Definition M (A : Type) : Type := list call * result A.

Definition ret {A} (a : A) : M A := ([], Ok a).
Definition raise {A} (e : exc) : M A := ([], Err e).
Definition tell (c : call) : M Datatypes.unit := ([c], Ok tt).
Definition bind {A B} (m : M A) (k : A -> M B) : M B :=
  match snd m with
  | Ok a => let (l2, r) := k a in ((fst m ++ l2)%list, r)
  | Err e => (fst m, Err e)
  end.
Definition lift {A} (r : result A) : M A := ([], r).

Notation "x <- m ;; k" := (bind m (fun x => k))
  (at level 61, m at next level, right associativity).
Notation "m ;;; k" := (bind m (fun _ => k))
  (at level 61, right associativity).

(** ** The comparison endpoints of app/compare.py *)

Inductive service_type : Type := Vm | Storage.

(** A provider's part of a response: ["service"] (when the endpoint sets
    one) and ["price_usd"] ([None] is JSON [null]). *)
Record side : Type := mkSide {
  service : option string;
  price_usd : option pyfloat
}.

Record comparison : Type := mkComparison {
  inputs : list (string * option string);
  aws : side;
  azure : side;
  cheapest_provider : string
}.

Inductive response : Type :=
| Compared (c : comparison)
| Coverage (inputs : list (string * option string)) (available : list (string * bool)).

(** FastAPI's validation of [max_pages: int = Query(.., ge=lo, le=hi)]:
    done before the endpoint's body runs; a failure is a 422. *)
Definition validated {A} (lo hi max_pages : Z) (body : M A) : M A :=
  if Z.leb lo max_pages && Z.leb max_pages hi then body else raise (HTTPError 422).

Section Endpoints.

(** The local provider endpoints, as seen through [client.get]: the raw
    AWS price list for a query of [/aws/prices], the Azure items for a query
    of [/azure/prices]. *)
Variable aws_get : list (string * pval) -> outcome (list aws_item).
Variable az_get : list (string * pval) -> outcome (list az_item).

(** [_min_price_from_aws] after its [client.get]. *)
Definition aws_eval (q : list (string * pval)) : result (option pyfloat) :=
  match aws_get q with
  | Transport_error => Err ClientRaised
  | Response st items =>
      if Z.eqb st 200
      then Ok (_min_nonzero_or_none (flat_map aws_item_prices items))
      else Ok None
  end.

(** [_min_price_from_azure] after its [client.get]. *)
Definition az_eval (q : list (string * pval)) : result (option pyfloat) :=
  match az_get q with
  | Transport_error => Err ClientRaised
  | Response st items =>
      if Z.eqb st 200 then Ok (_min_nonzero_or_none (az_prices items)) else Ok None
  end.

(** The AWS URL carries [raw=true] after the query. *)
Definition aws_query (ps : params) : list (string * pval) :=
  (query ps ++ [("raw", PStr "true")])%list.

Definition _min_price_from_aws (ps : params) : M (option pyfloat) :=
  let q := aws_query ps in tell (AwsCall q) ;;; lift (aws_eval q).

Definition _min_price_from_azure (ps : params) : M (option pyfloat) :=
  let q := query ps in tell (AzCall q) ;;; lift (az_eval q).

Definition vstr (s : string) : option pval := Some (PStr s).
Definition vint (n : Z) : option pval := Some (PInt n).

(** [compare_service] *)
Definition compare_service (st : service_type) (region : string)
    (azure_region : option string) (instance_type azure_sku : string)
    (max_pages : Z) : M response :=
  let az_region := map_azure_region region azure_region in
  prices <-
    match st with
    | Vm =>
        aws_price <- _min_price_from_aws
          [("service_code", vstr "AmazonEC2"); ("region", vstr region);
           ("instance_type", vstr instance_type); ("operating_system", vstr "Linux");
           ("max_pages", vint max_pages)] ;;
        azure_price <- _min_price_from_azure
          [("service_name", vstr "Virtual%20Machines"); ("arm_region_name", vstr az_region);
           ("sku_name", vstr azure_sku); ("max_pages", vint max_pages)] ;;
        azure_price <-
          match azure_price with
          | None => _min_price_from_azure
              [("service_name", vstr "Virtual%20Machines"); ("arm_region_name", vstr az_region);
               ("max_pages", vint max_pages)]
          | Some _ => ret azure_price
          end ;;
        ret (aws_price, azure_price)
    | Storage =>
        aws_price <- _min_price_from_aws
          [("service_code", vstr "AmazonS3"); ("region", Some (PStr region));
           ("max_pages", vint max_pages)] ;;
        azure_price <- _min_price_from_azure
          [("service_name", vstr "Storage"); ("arm_region_name", vstr az_region);
           ("max_pages", vint max_pages)] ;;
        ret (aws_price, azure_price)
    end ;;
  let (aws_price, azure_price) := prices in
  let cheapest := _cheapest aws_price azure_price in
  ret (Compared (mkComparison
    ([("service_type", Some (match st with Vm => "vm" | Storage => "storage" end));
      ("region_entered", Some region); ("aws_region", Some region);
      ("azure_region", Some az_region)] ++
     match st with
     | Vm => [("instance_type", Some instance_type); ("azure_sku", Some azure_sku)]
     | Storage => []
     end)%list
    (mkSide None aws_price) (mkSide None azure_price) cheapest)).

(** [compare_db_sql]; the three [Literal] parameters are passed as their
    strings. *)
Definition compare_db_sql (region : string) (azure_region : option string)
    (database_engine deployment_option license_model sku_name : string)
    (max_pages : Z) : M response :=
  let az_region := map_azure_region region azure_region in
  aws_price <- _min_price_from_aws
    [("service_code", vstr "AmazonRDS"); ("region", vstr region);
     ("database_engine", vstr database_engine); ("deployment_option", vstr deployment_option);
     ("license_model", vstr license_model); ("max_pages", vint max_pages)] ;;
  azure_price <- _min_price_from_azure
    [("service_name", vstr "SQL%20Database"); ("arm_region_name", vstr az_region);
     ("sku_name", vstr sku_name); ("max_pages", vint max_pages)] ;;
  azure_price <-
    match azure_price with
    | None => _min_price_from_azure
        [("service_name", vstr "SQL%20Database"); ("arm_region_name", vstr az_region);
         ("max_pages", vint max_pages)]
    | Some _ => ret azure_price
    end ;;
  let aws_out := _fallback_zero aws_price in
  let azure_out := _fallback_zero azure_price in
  let cheapest := _cheapest aws_price azure_price in
  ret (Compared (mkComparison
    [("region", Some region); ("azure_region", Some az_region);
     ("database_engine", Some database_engine);
     ("deployment_option", Some deployment_option);
     ("license_model", Some license_model); ("azure_sku", Some sku_name)]
    (mkSide (Some "AmazonRDS") (Some aws_out))
    (mkSide (Some "SQL Database") (Some azure_out)) cheapest)).

(** [compare_egress] *)
Definition compare_egress (region : string) (azure_region : option string)
    (max_pages : Z) : M response :=
  let az_region := map_azure_region region azure_region in
  aws_price <- _min_price_from_aws
    [("service_code", vstr "AmazonEC2"); ("region", vstr region); ("max_pages", vint max_pages)] ;;
  azure_price <- _min_price_from_azure
    [("service_name", vstr "Bandwidth"); ("arm_region_name", vstr az_region);
     ("max_pages", vint max_pages)] ;;
  let cheapest := _cheapest aws_price azure_price in
  ret (Compared (mkComparison
    [("aws_region", Some region); ("azure_region", Some az_region)]
    (mkSide (Some "AmazonEC2 (Data Transfer)") aws_price)
    (mkSide (Some "Bandwidth") azure_price) cheapest)).

(** [compare_block_storage] *)
Definition compare_block_storage (region : string) (azure_region : option string)
    (volume_type sku_name : option string) (max_pages : Z) : M response :=
  let az_region := map_azure_region region azure_region in
  aws_price <- _min_price_from_aws
    [("service_code", vstr "AmazonEC2"); ("region", vstr region);
     ("volume_type", option_map PStr volume_type); ("max_pages", vint max_pages)] ;;
  azure_price <- _min_price_from_azure
    ([("service_name", vstr "Storage"); ("arm_region_name", vstr az_region)] ++
     match sku_name with
     | Some s => if str_truthy s then [("sku_name", vstr s)] else []
     | None => []
     end ++ [("max_pages", vint max_pages)])%list ;;
  match aws_price, azure_price with
  | None, None => raise (HTTPError 404)
  | _, _ =>
      let cheapest := _cheapest aws_price azure_price in
      ret (Compared (mkComparison
        [("aws_region", Some region); ("azure_region", Some az_region);
         ("aws_volume_type", volume_type); ("azure_disk_sku", sku_name)]
        (mkSide (Some "Amazon EBS (via EC2 pricing)") aws_price)
        (mkSide (Some "Managed Disks (via Storage)") azure_price) cheapest))
  end.

(** [compare_load_balancer] *)
Definition compare_load_balancer (region : string) (azure_region : option string)
    (max_pages : Z) : M response :=
  let az_region := map_azure_region region azure_region in
  aws_price <- _min_price_from_aws
    [("service_code", vstr "AWSELB"); ("region", vstr region); ("max_pages", vint max_pages)] ;;
  azure_price <- _min_price_from_azure
    [("service_name", vstr "Load%20Balancer"); ("arm_region_name", vstr az_region);
     ("max_pages", vint max_pages)] ;;
  let aws_out := _fallback_zero aws_price in
  let azure_out := _fallback_zero azure_price in
  let cheapest := _cheapest aws_price azure_price in
  ret (Compared (mkComparison
    [("aws_region", Some region); ("azure_region", Some az_region)]
    (mkSide (Some "Elastic Load Balancing") (Some aws_out))
    (mkSide (Some "Load Balancer") (Some azure_out)) cheapest)).

(** [compare_dns] *)
Definition compare_dns (region : string) (azure_region : option string)
    (max_pages : Z) : M response :=
  let az_region := map_azure_region region azure_region in
  aws_price <- _min_price_from_aws
    [("service_code", vstr "AmazonRoute53"); ("region", vstr region);
     ("max_pages", vint max_pages)] ;;
  azure_price <- _min_price_from_azure
    [("service_name", vstr "DNS"); ("arm_region_name", vstr az_region);
     ("max_pages", vint max_pages)] ;;
  let cheapest := _cheapest aws_price azure_price in
  ret (Compared (mkComparison
    [("aws_region", Some region); ("azure_region", Some az_region)]
    (mkSide (Some "Amazon Route 53") aws_price)
    (mkSide (Some "Azure DNS") azure_price) cheapest)).

Definition is_some {A} (o : option A) : bool :=
  match o with Some _ => true | None => false end.

(** [az_coverage] *)
Definition az_coverage (region : string) (azure_region : option string)
    (max_pages : Z) : M response :=
  let az_region := map_azure_region region azure_region in
  aws_vm <- _min_price_from_aws
    [("service_code", vstr "AmazonEC2"); ("region", vstr region); ("max_pages", vint max_pages)] ;;
  aws_s3 <- _min_price_from_aws
    [("service_code", vstr "AmazonS3"); ("region", vstr region); ("max_pages", vint max_pages)] ;;
  az_vm <- _min_price_from_azure
    [("service_name", vstr "Virtual%20Machines"); ("arm_region_name", vstr az_region);
     ("max_pages", vint max_pages)] ;;
  az_st <- _min_price_from_azure
    [("service_name", vstr "Storage"); ("arm_region_name", vstr az_region);
     ("max_pages", vint max_pages)] ;;
  ret (Coverage [("aws_region", Some region); ("azure_region", Some az_region)]
    [("aws_vm", is_some aws_vm); ("aws_storage", is_some aws_s3);
     ("azure_vm", is_some az_vm); ("azure_storage", is_some az_st)]).

(** The seven routes, each with the [max_pages] bounds of its signature. *)
Inductive route : Type :=
| RService (st : service_type) (instance_type azure_sku : string)
| RDbSql (database_engine deployment_option license_model sku_name : string)
| REgress
| RBlockStorage (volume_type sku_name : option string)
| RLoadBalancer
| RDns
| RAzCoverage.

Definition max_pages_le (r : route) : Z :=
  match r with RAzCoverage => 2 | _ => 5 end.

Definition endpoint_body (r : route) (region : string) (azure_region : option string)
    (max_pages : Z) : M response :=
  match r with
  | RService st it sku => compare_service st region azure_region it sku max_pages
  | RDbSql e d l s => compare_db_sql region azure_region e d l s max_pages
  | REgress => compare_egress region azure_region max_pages
  | RBlockStorage v s => compare_block_storage region azure_region v s max_pages
  | RLoadBalancer => compare_load_balancer region azure_region max_pages
  | RDns => compare_dns region azure_region max_pages
  | RAzCoverage => az_coverage region azure_region max_pages
  end.

(** A request to a route, after FastAPI's query validation. *)
Definition handle (r : route) (region : string) (azure_region : option string)
    (max_pages : Z) : M response :=
  validated 1 (max_pages_le r) max_pages (endpoint_body r region azure_region max_pages).

End Endpoints.

(** ** Pagination loops *)

Definition opt_truthy (o : option string) : bool :=
  match o with Some s => str_truthy s | None => false end.

(** One [pricing.get_products] response. *)
Record aws_page : Type := mkAwsPage {
  PriceList : list string;
  NextToken : option string
}.

Section AwsPagination.

(** The pricing API as the loop sees it: the response to the [k]-th call
    (from 0), given the [NextToken] sent with it ([None]: none sent).  Any
    feed behaviour, stateful or not, is one such function. *)
Variable get_products : nat -> option string -> aws_page.
Variable max_pages : Z.

(** The [while pages < max_pages] loop of [get_products_paginated], with its
    state [pages], [token], [items] and the responses received so far.
    [fuel] is [max_pages - pages] at every iteration (see
    [paginate_loop_inv]), so it runs out only where the guard fails. *)
Fixpoint paginate_loop (fuel : nat) (pages : Z) (token : option string)
    (items : list string) (seen : list aws_page) : list string * list aws_page :=
  match fuel with
  | O => (items, seen)
  | Datatypes.S fuel' =>
      if Z.ltb pages max_pages then
        let sent := if opt_truthy token then token else None in
        let resp := get_products (Z.to_nat pages) sent in
        let items := (items ++ PriceList resp)%list in
        let token := NextToken resp in
        let pages := (pages + 1)%Z in
        let seen := (seen ++ [resp])%list in
        if negb (opt_truthy token) then (items, seen)
        else paginate_loop fuel' pages token items seen
      else (items, seen)
  end.

(** [get_products_paginated]: the items and the pages consumed. *)
Definition get_products_paginated : list string * list aws_page :=
  paginate_loop (Z.to_nat max_pages) 0 None [] [].

End AwsPagination.

(** One page of the Azure retail prices API. *)
Record az_page : Type := mkAzPage {
  Items : list az_item;
  NextPageLink : option string
}.

Definition BASE : string := "https://prices.azure.com/api/retail/prices".

Section AzurePagination.

(** [client.get(url)] for the [k]-th call. *)
Variable get : nat -> string -> outcome az_page.
Variable max_pages : Z.

(** The [while url and pages < max_pages] loop of [fetch]: the items or the
    exception raised, with the responses received. *)
Fixpoint fetch_loop (fuel : nat) (pages : Z) (url : option string)
    (items : list az_item) (seen : list (outcome az_page))
    : result (list az_item) * list (outcome az_page) :=
  match fuel with
  | O => (Ok items, seen)
  | Datatypes.S fuel' =>
      match url with
      | Some u =>
          if str_truthy u && Z.ltb pages max_pages then
            let r := get (Z.to_nat pages) u in
            let seen := (seen ++ [r])%list in
            match r with
            | Transport_error => (Err ClientRaised, seen)
            | Response st data =>
                if negb (Z.eqb st 200) then (Err (HTTPError st), seen)
                else fetch_loop fuel' (pages + 1)%Z (NextPageLink data)
                       (items ++ Items data)%list seen
            end
          else (Ok items, seen)
      | None => (Ok items, seen)
      end
  end.

Definition fetch (q : string) : result (list az_item) * list (outcome az_page) :=
  let url := if str_truthy q then (BASE ++ "?" ++ q)%string else BASE in
  fetch_loop (Z.to_nat max_pages) 0 (Some url) [] [].

End AzurePagination.

(** ** app/aws.py: region labels, filters and the simplified view *)

(** [REGION_CODE_TO_LOCATION]; strings are byte strings, so the UTF-8
    of "São Paulo" is kept as it is. *)
Definition REGION_CODE_TO_LOCATION : list (string * string) := [
  ("us-east-1", "US East (N. Virginia)");
  ("us-east-2", "US East (Ohio)");
  ("us-west-1", "US West (N. California)");
  ("us-west-2", "US West (Oregon)");
  ("ca-central-1", "Canada (Central)");
  ("eu-central-1", "EU (Frankfurt)");
  ("eu-west-1", "EU (Ireland)");
  ("eu-west-2", "EU (London)");
  ("eu-west-3", "EU (Paris)");
  ("eu-north-1", "EU (Stockholm)");
  ("ap-south-1", "Asia Pacific (Mumbai)");
  ("ap-southeast-1", "Asia Pacific (Singapore)");
  ("ap-southeast-2", "Asia Pacific (Sydney)");
  ("ap-northeast-1", "Asia Pacific (Tokyo)");
  ("ap-northeast-2", "Asia Pacific (Seoul)");
  ("ap-east-1", "Asia Pacific (Hong Kong)");
  ("sa-east-1", "South America (São Paulo)")
].

(** [to_location] *)
Definition to_location (val : option string) : option string :=
  match val with
  | Some v =>
      if str_truthy v then
        let v := strip v in Some (dict_get REGION_CODE_TO_LOCATION v v)
      else None
  | None => None
  end.

(** One [{"Type": ..., "Field": ..., "Value": ...}] filter. *)
Record term_filter : Type := mkFilter {
  Type_ : string;
  Field : string;
  Value : string
}.

(** [if v: fs.append({"Type": "TERM_MATCH", "Field": f, "Value": v})] *)
Definition add_filter (f : string) (v : option string) : list term_filter :=
  match v with
  | Some s => if str_truthy s then [mkFilter "TERM_MATCH" f s] else []
  | None => []
  end.

(** [build_filters] *)
Definition build_filters (location instance_type operating_system tenancy
    pre_installed_sw capacity_status : option string) : list term_filter :=
  (add_filter "location" location ++
   add_filter "instanceType" instance_type ++
   add_filter "operatingSystem" operating_system ++
   add_filter "tenancy" tenancy ++
   add_filter "preInstalledSw" pre_installed_sw ++
   add_filter "capacitystatus" capacity_status)%list.

(** [str.lower()] on ASCII. *)
Definition lower_ascii (c : ascii) : ascii :=
  let n := nat_of_ascii c in
  if ((65 <=? n) && (n <=? 90))%nat then ascii_of_nat (n + 32) else c.

Definition lower (s : string) : string :=
  string_of_list_ascii (map lower_ascii (list_ascii_of_string s)).

(** A decoded PriceList element, as [parse_on_demand] reads it: the
    product's ["sku"] and ["attributes"], and the OnDemand terms with, per
    dimension, its ["unit"] and its ["pricePerUnit"]["USD"] string (missing
    keys read as absent or [{}]). *)
Record odim : Type := mkODim {
  ounit : option string;
  ousd : option string
}.

Record price_obj : Type := mkPriceObj {
  sku : option string;
  attributes : list (string * string);
  terms_ondemand : list (string * list (string * odim))
}.

(** One element of the simplified view. *)
Record on_demand_row : Type := mkRow {
  row_sku : option string;
  row_attributes : list (string * option string);
  ondemand_price_hour_usd : option pyfloat
}.

Fixpoint attr_get (d : list (string * string)) (k : string) : option string :=
  match d with
  | (k', v) :: r => if String.eqb k k' then Some v else attr_get r k
  | [] => None
  end.

Definition ROW_ATTRIBUTES : list string :=
  ["servicecode"; "location"; "instanceType"; "operatingSystem"; "tenancy";
   "preInstalledSw"; "capacitystatus"; "vcpu"; "memory"].

(** The test of the inner loop: [usd and unit.startswith("hr")], with
    [unit = (dim.get("unit") or "").lower()]. *)
Definition hourly_usd (d : odim) : option string :=
  let u := match ounit d with Some s => lower s | None => "" end in
  match ousd d with
  | Some s => if str_truthy s && String.prefix "hr" u then Some s else None
  | None => None
  end.

(** The inner loop: the USD string of the first qualifying dimension. *)
Fixpoint scan_dims (ds : list (string * odim)) : option string :=
  match ds with
  | (_, d) :: r => match hourly_usd d with Some s => Some s | None => scan_dims r end
  | [] => None
  end.

(** The outer loop, which stops once [price_hr] is set. *)
Fixpoint scan_terms (ts : list (string * list (string * odim))) : option string :=
  match ts with
  | (_, t) :: r => match scan_dims t with Some s => Some s | None => scan_terms r end
  | [] => None
  end.

Section ParseOnDemand.

(** [json.loads] on a PriceList string ([None]: [JSONDecodeError]) and
    [float] on a USD string ([None]: [ValueError]). *)
Variable json_loads : string -> option price_obj.
Variable py_float : string -> option pyfloat.

(** The row of a decoded element; [None] when [float(usd)] raises, which
    nothing in [parse_on_demand] catches. *)
Definition row_of (o : price_obj) : option on_demand_row :=
  let price :=
    match scan_terms (terms_ondemand o) with
    | Some s => option_map Some (py_float s)
    | None => Some None
    end in
  match price with
  | Some p => Some (mkRow (sku o)
                  (map (fun k => (k, attr_get (attributes o) k)) ROW_ATTRIBUTES) p)
  | None => None
  end.

(** [parse_on_demand]; [None] when a [ValueError] escapes. *)
Fixpoint parse_on_demand (items : list string) : option (list on_demand_row) :=
  match items with
  | [] => Some []
  | raw :: r =>
      match json_loads raw with
      | None => parse_on_demand r
      | Some o =>
          match row_of o with
          | Some row => option_map (cons row) (parse_on_demand r)
          | None => None
          end
      end
  end.

(** The body of [/aws/prices]: [{"count": ..., "items": ...}], raw or
    simplified. *)
Inductive aws_prices_body : Type :=
| RawBody (count : nat) (items : list price_obj)
| ViewBody (count : nat) (items : list on_demand_row).

Fixpoint loads_all (items : list string) : option (list price_obj) :=
  match items with
  | [] => Some []
  | raw :: r =>
      match json_loads raw with
      | Some o => option_map (cons o) (loads_all r)
      | None => None
      end
  end.

(** [get_prices] of app/aws.py after the FastAPI validation; [pricing]
    answers [get_products] for a service code and filters. [None]: an
    exception escapes (a 500). *)
Definition aws_get_prices (pricing : string -> list term_filter -> nat -> option string -> aws_page)
    (service_code : string) (region instance_type operating_system tenancy
    pre_installed_sw capacity_status : option string) (max_pages : Z) (raw : bool)
    : option aws_prices_body :=
  let location := to_location region in
  let filters := build_filters location instance_type operating_system tenancy
                   pre_installed_sw capacity_status in
  let items := fst (get_products_paginated (pricing service_code filters) max_pages) in
  if raw then option_map (RawBody (List.length items)) (loads_all items)
  else option_map (ViewBody (List.length items)) (parse_on_demand items).

End ParseOnDemand.

(** ** app/azure.py: the OData filter of [get_prices] *)

Definition add_clause (name : string) (v : option string) : list string :=
  match v with
  | Some s => if str_truthy s then [(name ++ " eq '" ++ s ++ "'")%string] else []
  | None => []
  end.

(** The [filters] list of [get_prices]. *)
Definition azure_filters (service_name arm_region_name sku_name meter_name price_type
    currency_code : option string) : list string :=
  (add_clause "serviceName" service_name ++
   add_clause "armRegionName" arm_region_name ++
   add_clause "skuName" sku_name ++
   add_clause "meterName" meter_name ++
   add_clause "priceType" price_type ++
   add_clause "currencyCode" currency_code)%list.

(** ["sep".join(l)] *)
Fixpoint join (sep : string) (l : list string) : string :=
  match l with
  | [] => ""
  | [x] => x
  | x :: r => (x ++ sep ++ join sep r)%string
  end.

(** [urllib.parse.quote_plus(s, safe=" '")] on ASCII: letters, digits,
    [_.-~] and the quote stay, a space becomes [+], any other byte [%XX]. *)
Definition hex_digit (n : nat) : ascii :=
  if (n <? 10)%nat then ascii_of_nat (48 + n) else ascii_of_nat (55 + n).

Definition quote_char (c : ascii) : list ascii :=
  let n := nat_of_ascii c in
  if (((48 <=? n) && (n <=? 57)) || ((65 <=? n) && (n <=? 90)) ||
      ((97 <=? n) && (n <=? 122)) || (n =? 95) || (n =? 46) || (n =? 45) ||
      (n =? 126) || (n =? 39))%nat
  then [c]
  else if (n =? 32)%nat then ["+"%char]
  else ["%"%char; hex_digit (n / 16)%nat; hex_digit (n mod 16)%nat].

Definition quote_plus (s : string) : string :=
  string_of_list_ascii (flat_map quote_char (list_ascii_of_string s)).

(** [urlencode({"$filter": f}, safe=" '")] *)
Definition urlencode_filter (f : string) : string :=
  (quote_plus "$filter" ++ "=" ++ quote_plus f)%string.

(** The query [get_prices] hands to [fetch], and [get_prices] itself. *)
Definition azure_query (service_name arm_region_name sku_name meter_name price_type
    currency_code : option string) : string :=
  match azure_filters service_name arm_region_name sku_name meter_name price_type
          currency_code with
  | [] => ""
  | fs => urlencode_filter (join " and " fs)
  end.

Definition azure_get_prices (get : nat -> string -> outcome az_page)
    (service_name arm_region_name sku_name meter_name price_type currency_code : option string)
    (max_pages : Z) : result (nat * list az_item) * list (outcome az_page) :=
  let query := azure_query service_name arm_region_name sku_name meter_name price_type
                 currency_code in
  let (res, seen) := fetch get max_pages query in
  (match res with
   | Ok items => Ok (List.length items, items)
   | Err e => Err e
   end, seen).

(** ** app/auth.py and app/main.py: accounts, tokens and the guard of the
    comparison routes *)

(** [\w] on ASCII text: letters, digits and the underscore. *)
Definition is_word_char (c : ascii) : bool :=
  let n := nat_of_ascii c in
  (((48 <=? n) && (n <=? 57)) || ((65 <=? n) && (n <=? 90)) ||
   ((97 <=? n) && (n <=? 122)) || (n =? 95))%nat.

(** The class [[\w@#$%^&+=]] of [sanitize_password]. *)
Definition is_password_char (c : ascii) : bool :=
  is_word_char c || existsb (fun d => Ascii.eqb c d) (list_ascii_of_string "@#$%^&+=").

(** Text made of ASCII characters only, where the two classes above are
    the ones Python's [re] uses. *)
Definition is_ascii_text (s : string) : bool :=
  forallb (fun c => (nat_of_ascii c <? 128)%nat) (list_ascii_of_string s).

(** [sanitize_input]: [re.sub(r'[^\w]', '', s)]. *)
Definition sanitize_input (user_input : string) : string :=
  string_of_list_ascii (filter is_word_char (list_ascii_of_string user_input)).

(** [sanitize_password]: [re.sub(r'[^\w@#$%^&+=]', '', s)]. *)
Definition sanitize_password (user_input : string) : string :=
  string_of_list_ascii (filter is_password_char (list_ascii_of_string user_input)).

Definition sanitize_login_input (username_input password_input : string) : string * string :=
  (sanitize_input username_input, sanitize_password password_input).

(** A JSON value of a token payload, with Python's truthiness. *)
Inductive jval : Type :=
| JStr (s : string)
| JNum (q : Q)
| JBool (b : bool)
| JNull
| JArr (len : nat)
| JObj (len : nat).

Definition jtruthy (v : jval) : bool :=
  match v with
  | JStr s => str_truthy s
  | JNum q => negb (Qeq_bool q 0)
  | JBool b => b
  | JNull => false
  | JArr n | JObj n => negb (Nat.eqb n 0)
  end.

(** A payload as a dict given by its items. *)
Definition payload := list (string * jval).

Fixpoint payload_get (d : payload) (k : string) : option jval :=
  match d with
  | (k', v) :: r => if String.eqb k k' then Some v else payload_get r k
  | [] => None
  end.

(** [dict.update({k: v})]: replaced in place, or added at the end. *)
Fixpoint payload_set (k : string) (v : jval) (d : payload) : payload :=
  match d with
  | (k', v') :: r => if String.eqb k k' then (k, v) :: r else (k', v') :: payload_set k v r
  | [] => [(k, v)]
  end.

(** What [jwt.decode] does with a token: the payload, or the
    [ExpiredSignatureError], or another [PyJWTError]. *)
Inductive decoded : Type :=
| Payload (p : payload)
| ExpiredSignature
| InvalidToken.

(** An [HTTPException], and [str] of it ("{status_code}: {detail}"). *)
Record http_error : Type := mkHttpError {
  status_code : Z;
  detail : string
}.

Fixpoint digits_aux (fuel n : nat) (acc : string) : string :=
  match fuel with
  | O => acc
  | Datatypes.S f =>
      let acc' := String (ascii_of_nat (48 + n mod 10)%nat) acc in
      if (n <? 10)%nat then acc' else digits_aux f (n / 10)%nat acc'
  end.

(** [str] of a non-negative integer. *)
Definition dec_of_Z (z : Z) : string :=
  digits_aux (Datatypes.S (Z.to_nat z)) (Z.to_nat z) "".

Definition http_error_str (e : http_error) : string :=
  (dec_of_Z (status_code e) ++ ": " ++ detail e)%string.

(** A handler's answer: its value, or the [HTTPException] it raises. *)
Inductive answer (A : Type) : Type :=
| Done (a : A)
| Raised (e : http_error).
Arguments Done {A} a.
Arguments Raised {A} e.

(** The [Token] model. *)
Record token : Type := mkToken {
  access_token : string;
  token_type : string
}.

(** The users collection: [(username, password hash)] documents, in
    insertion order; [find_one] returns the first match. *)
Definition users := list (string * string).

Fixpoint find_one (us : users) (username : string) : option string :=
  match us with
  | (u, h) :: r => if String.eqb username u then Some h else find_one r username
  | [] => None
  end.

Definition ACCESS_TOKEN_EXPIRE_MINUTES : Z := 30.

Section Auth.

(** [bcrypt.checkpw] and [bcrypt.hashpw] (with the salt of that call),
    [jwt.encode] and [jwt.decode] with the service's key and algorithm, and
    the clock, in whole seconds, as [jwt] writes ["exp"]. *)
Variable checkpw : string -> string -> bool.
Variable hashpw : string -> string.
Variable jwt_encode : payload -> string.
Variable jwt_decode : string -> decoded.
Variable now : Z.

(** [generate_jwt_token]; [expires_delta] in seconds, [None] or [0]
    (falsy) giving the default of 15 minutes. *)
Definition generate_jwt_token (data : payload) (expires_delta : option Z) : string :=
  let expire :=
    match expires_delta with
    | Some d => if negb (Z.eqb d 0) then (now + d)%Z else (now + 15 * 60)%Z
    | None => (now + 15 * 60)%Z
    end in
  jwt_encode (payload_set "exp" (JNum (inject_Z expire)) data).

(** [validate_jwt]: [true], or the 401 it raises. *)
Definition validate_jwt (tok : string) : answer bool :=
  match jwt_decode tok with
  | Payload p =>
      match payload_get p "user" with
      | Some v => if jtruthy v then Done true
                  else Raised (mkHttpError 401 "Token payload missing 'user'")
      | None => Raised (mkHttpError 401 "Token payload missing 'user'")
      end
  | ExpiredSignature => Raised (mkHttpError 401 "Token has expired")
  | InvalidToken => Raised (mkHttpError 401 "Could not validate credentials")
  end.

(** [verify_password] and [authenticate_user], the database answering. *)
Definition verify_password (password hashed : string) : bool := checkpw password hashed.

Definition authenticate_user (us : users) (username password : string) : bool :=
  match find_one us username with
  | Some h => verify_password password h
  | None => false
  end.

(** [POST /user/create]: the collection after the request, and the
    answer. The 400 raised inside the [try] is caught by its
    [except Exception] and re-raised as a 500. *)
Definition create_user (us : users) (form_username form_password : string)
    : users * answer string :=
  let (username, password) := sanitize_login_input form_username form_password in
  match find_one us username with
  | Some _ =>
      (us, Raised (mkHttpError 500 ("Unable to create user: " ++
             http_error_str (mkHttpError 400 "Username already exists"))))
  | None =>
      ((us ++ [(username, hashpw password)])%list, Done "User created successfully")
  end.

(** [POST /token]; the 401 raised inside the [try] becomes a 500 the same
    way. The token is issued for [form_data.username] as entered. *)
Definition login_for_access_token (us : users) (form_username form_password : string)
    : answer token :=
  let (username, password) := sanitize_login_input form_username form_password in
  if negb (authenticate_user us username password) then
    Raised (mkHttpError 500 ("Unable to login: " ++
      http_error_str (mkHttpError 401 "Incorrect username or password")))
  else
    Done (mkToken (generate_jwt_token [("user", JStr form_username)]
                     (Some (ACCESS_TOKEN_EXPIRE_MINUTES * 60)%Z))
                  "bearer").

(** [GET /token]: the [HTTPException]s of [validate_jwt] pass through
    ([None]: the handler falls off its end). *)
Definition validate_login (tok : string) : answer (option string) :=
  match validate_jwt tok with
  | Done true => Done (Some "Token is valid")
  | Done false => Done None
  | Raised e => Raised e
  end.

(** A comparison route behind [Depends(auth.require_auth)]: the bearer
    token [OAuth2PasswordBearer] reads from the [Authorization] header
    ([None]: missing or not a bearer scheme, its 401 "Not authenticated"),
    then [validate_jwt], then the route with its query validation. *)
Definition protected_handle (bearer : option string)
    (aws_get : list (string * pval) -> outcome (list aws_item))
    (az_get : list (string * pval) -> outcome (list az_item))
    (r : route) (region : string) (azure_region : option string) (max_pages : Z)
    : M response :=
  match bearer with
  | None => raise (HTTPError 401)
  | Some tok =>
      match validate_jwt tok with
      | Done _ => handle aws_get az_get r region azure_region max_pages
      | Raised e => raise (HTTPError (status_code e))
      end
  end.

End Auth.

(** The requests a run of the AWS loop made, read off the responses: the
    [k]-th call sent the token of the response before it ([None] for the
    first, or when that token is falsy). *)
Fixpoint aws_chain (get_products : nat -> option string -> aws_page) (k : nat)
    (token : option string) (pages : list aws_page) : Prop :=
  match pages with
  | [] => True
  | r :: rest =>
      r = get_products k (if opt_truthy token then token else None) /\
      aws_chain get_products (Datatypes.S k) (NextToken r) rest
  end.

(** The same for the Azure loop: the [k]-th call went to the URL the
    response before it gave as [NextPageLink]. *)
Fixpoint az_chain (get : nat -> string -> outcome az_page) (k : nat) (url : string)
    (pages : list (outcome az_page)) : Prop :=
  match pages with
  | [] => True
  | r :: rest =>
      r = get k url /\
      match r, rest with
      | _, [] => True
      | Response _ d, _ =>
          match NextPageLink d with
          | Some u => az_chain get (Datatypes.S k) u rest
          | None => False
          end
      | Transport_error, _ :: _ => False
      end
  end.

Definition page_items (r : outcome az_page) : list az_item :=
  match r with Response _ d => Items d | Transport_error => [] end.

(** ** Helpers for the statements and sample inputs *)

(** Every dimension of an item with its unit replaced by [g] of it. *)
Definition relabel_units (g : option string -> option string) (it : aws_item) : aws_item :=
  mkAwsItem (map (fun t => (fst t, map (fun d => (fst d, mkDim (g (unit (snd d))) (usd (snd d)))) (snd t)))
                 (ondemand it)).

(** Sample feeds: an AWS price list of one hourly dimension, and Azure
    endpoints answering with one item, with one item only for queries
    without a [sku_name] facet, and with an error status. *)
Definition hourly_item (price : Q) : aws_item :=
  mkAwsItem [("T", [("T.D", mkDim (Some "Hrs") (Some (Parsed (Fin price))))])].

Definition aws_fixture (price : Q) (q : list (string * pval)) : outcome (list aws_item) :=
  Response 200 [hourly_item price].

Definition has_key (k : string) (q : list (string * pval)) : bool :=
  existsb (fun kv => String.eqb (fst kv) k) q.

Definition az_fixture (price : Q) (q : list (string * pval)) : outcome (list az_item) :=
  Response 200 [mkAzItem (Some (Parsed (Fin price)))].

Definition az_fixture_no_sku (price : Q) (q : list (string * pval))
  : outcome (list az_item) :=
  if has_key "sku_name" q then Response 200 []
  else Response 200 [mkAzItem (Some (Parsed (Fin price)))].

Definition az_down (q : list (string * pval)) : outcome (list az_item) :=
  Response 503 [].

Definition aws_down (q : list (string * pval)) : outcome (list aws_item) :=
  Response 500 [].

(** A default page for [last]; and a pricing feed that never stops
    supplying a continuation token. *)
Definition aws_dummy : aws_page := mkAwsPage [] None.

Definition endless_feed (k : nat) (token : option string) : aws_page :=
  mkAwsPage ["{}"] (Some "NEXT").

Definition endless_azure (k : nat) (url : string) : outcome az_page :=
  Response 200 (mkAzPage [] (Some "https://prices.azure.com/api/retail/prices?$skip=100")).

(** A decoded price list element with a monthly and an hourly dimension,
    a [json.loads] that decodes only ["item-1"], a [float] that parses the
    two amounts, and a feed of one page holding that item and a string that
    does not decode. *)
Definition sample_obj : price_obj :=
  mkPriceObj (Some "SKU1") [("instanceType", "t3.micro")]
    [("T", [("T.a", mkODim (Some "GB-Mo") (Some "5"));
            ("T.b", mkODim (Some "Hrs") (Some "0.0104"))])].

Definition sample_loads (s : string) : option price_obj :=
  if String.eqb s "item-1" then Some sample_obj else None.

Definition sample_float (s : string) : option pyfloat :=
  if String.eqb s "0.0104" then Some (Fin (104 # 10000))
  else if String.eqb s "5" then Some (Fin 5) else None.

Definition sample_pricing (sc : string) (fs : list term_filter) (k : nat)
    (token : option string) : aws_page :=
  mkAwsPage ["item-1"; "not json"] None.

Definition sample_row : on_demand_row :=
  mkRow (Some "SKU1")
    (map (fun k => (k, attr_get [("instanceType", "t3.micro")] k)) ROW_ATTRIBUTES)
    (Some (Fin (104 # 10000))).

(** The exceptions a computation may end with all satisfy [P]. *)
Definition errs_only {A} (P : exc -> Prop) (m : M A) : Prop :=
  forall e, snd m = Err e -> P e.

(** Oracles for the account samples: a [hashpw] storing the password
    itself, its [checkpw], an encoder and a decoder that reads back the
    payload of a token it wrote. *)
Definition plain_hashpw (p : string) : string := p.

Definition plain_checkpw (p h : string) : bool := String.eqb p h.

Definition sample_encode (p : payload) : string :=
  match payload_get p "user" with Some (JStr u) => u | _ => "" end.

Definition sample_decode (tok : string) : decoded :=
  Payload [("user", JStr tok)].

(** An Azure retail API of one page holding one item. *)
Definition one_page_azure (k : nat) (url : string) : outcome az_page :=
  Response 200 (mkAzPage [mkAzItem (Some (Parsed (Fin 1)))] None).

(** The six facets of the Azure [get_prices], named by their OData
    fields, and the clause [{name} eq '{value}'] of one given facet. *)
Definition az_facets (service_name arm_region_name sku_name meter_name price_type
    currency_code : option string) : list (string * option string) :=
  [("serviceName", service_name); ("armRegionName", arm_region_name);
   ("skuName", sku_name); ("meterName", meter_name); ("priceType", price_type);
   ("currencyCode", currency_code)].

Definition odata_clause (nv : string * option string) : string :=
  (fst nv ++ " eq '" ++ match snd nv with Some v => v | None => "" end ++ "'")%string.

(** * Properties *)

(** ** Floats and the aggregator *)

Lemma qlt_spec (a b : Q) : qlt a b = true <-> a < b.
Proof.
  unfold qlt. rewrite negb_true_iff. split.
  - intro H. apply Qnot_le_lt. intro H'. apply Qle_bool_iff in H'. congruence.
  - intro H. destruct (Qle_bool b a) eqn:E; [|reflexivity].
    apply Qle_bool_iff in E. exfalso. apply (Qlt_not_le a b); assumption.
Qed.

Lemma qlt_false (a b : Q) : qlt a b = false <-> b <= a.
Proof.
  unfold qlt. rewrite negb_false_iff. apply Qle_bool_iff.
Qed.

Lemma py_min_fin (l : list Q) : forall x,
  exists m, py_min (Fin x) (map Fin l) = Fin m /\ (m = x \/ In m l) /\
            m <= x /\ forall v, In v l -> m <= v.
Proof.
  induction l as [|a l IH]; intro x.
  - exists x. repeat split; auto using Qle_refl. intros v [].
  - unfold py_min. simpl. fold (py_min (if qlt a x then Fin a else Fin x) (map Fin l)).
    destruct (qlt a x) eqn:E.
    + apply qlt_spec in E. destruct (IH a) as (m & Hm & Hin & Ha & Hl).
      exists m. repeat split; auto.
      * destruct Hin; auto.
      * apply Qle_trans with a; auto. apply Qlt_le_weak; assumption.
      * intros v [<-|Hv]; auto.
    + apply qlt_false in E. destruct (IH x) as (m & Hm & Hin & Hx & Hl).
      exists m. repeat split; auto.
      * destruct Hin; auto.
      * intros v [<-|Hv]; auto. apply Qle_trans with x; auto.
Qed.

Lemma filter_pos_fin (l : list Q) :
  filter (fun v => py_lt (Fin 0) v) (map Fin l) = map Fin (filter (qlt 0) l).
Proof.
  induction l as [|a l IH]; cbn [map filter]; [reflexivity|].
  change (py_lt (Fin 0) (Fin a)) with (qlt 0 a).
  destruct (qlt 0 a); cbn [map]; congruence.
Qed.

(** ** Region mapping *)

Lemma dict_get_absent (d : list (string * string)) (k : string) :
  (forall v, ~ In (k, v) d) -> dict_get d k k = k.
Proof.
  induction d as [|[k' v] d IH]; intro H; simpl; [reflexivity|].
  destruct (String.eqb k k') eqn:E.
  - apply String.eqb_eq in E. subst. exfalso. apply (H v). left. reflexivity.
  - apply IH. intros v' Hv'. apply (H v'). right. assumption.
Qed.

Lemma str_truthy_strip (s : string) :
  str_truthy (strip s) = true -> str_truthy s = true.
Proof. destruct s; [discriminate | reflexivity]. Qed.

(** ** C1 *)

(** C1: on a list of finite candidate amounts, [_min_nonzero_or_none]
    returns the least strictly positive amount when there is one; otherwise,
    on a non-empty list, the least amount; on the empty list, [None]
    (and on [-5; 3] it returns [3]). *)
Theorem C1_min_nonzero_or_none_policy : forall l : list Q,
  ((exists v, In v l /\ 0 < v) ->
     exists m, _min_nonzero_or_none (map Fin l) = Some (Fin m) /\
               In m l /\ 0 < m /\ forall v, In v l -> 0 < v -> m <= v) /\
  (l <> [] -> (forall v, In v l -> v <= 0) ->
     exists m, _min_nonzero_or_none (map Fin l) = Some (Fin m) /\
               In m l /\ forall v, In v l -> m <= v) /\
  (l = [] -> _min_nonzero_or_none (map Fin l) = None) /\
  _min_nonzero_or_none [Fin (-5); Fin 3] = Some (Fin 3).
Proof.
  intro l. unfold _min_nonzero_or_none. rewrite filter_pos_fin.
  repeat split.
  - intros (v & Hv & Hpos).
    destruct (filter (qlt 0) l) as [|c cs] eqn:E.
    + exfalso. assert (Hf : In v (filter (qlt 0) l)).
      { apply filter_In. split; [assumption|]. apply qlt_spec. assumption. }
      rewrite E in Hf. destruct Hf.
    + destruct (py_min_fin cs c) as (m & Hm & Hin & Hc & Hcs).
      exists m. cbn [map]. rewrite Hm. split; [reflexivity|].
      assert (Hmf : In m (filter (qlt 0) l)).
      { rewrite E. destruct Hin as [->|Hin]; [left; reflexivity | right; assumption]. }
      apply filter_In in Hmf. destruct Hmf as [Hml Hmp].
      apply qlt_spec in Hmp.
      repeat split; auto.
      intros w Hw Hwp.
      assert (Hwf : In w (filter (qlt 0) l)) by (apply filter_In; split; auto; apply qlt_spec; auto).
      rewrite E in Hwf. destruct Hwf as [<-|Hwf]; auto.
  - intros Hne Hle.
    destruct (filter (qlt 0) l) as [|c cs] eqn:E.
    + destruct l as [|x xs]; [congruence|].
      destruct (py_min_fin xs x) as (m & Hm & Hin & Hx & Hxs).
      exists m. cbn [map]. rewrite Hm. split; [reflexivity|]. split.
      * destruct Hin as [->|Hin]; [left; reflexivity | right; assumption].
      * intros v [<-|Hv]; auto.
    + exfalso. assert (Hc : In c (filter (qlt 0) l)) by (rewrite E; left; reflexivity).
      apply filter_In in Hc. destruct Hc as [Hc Hcp]. apply qlt_spec in Hcp.
      apply (Qlt_not_le 0 c Hcp). apply Hle. assumption.
  - intros ->. reflexivity.
Qed.

(** ** C3 *)

(** C3: [_cheapest] gives ["Same"] when both prices are absent, the present
    side when exactly one is present, and otherwise the strictly smaller
    side, ["Same"] on equal amounts; with the spec's five examples. *)
Theorem C3_cheapest_cases :
  _cheapest None None = "Same" /\
  (forall x, _cheapest (Some x) None = "AWS") /\
  (forall x, _cheapest None (Some x) = "Azure") /\
  (forall a b : Q,
     (a < b -> _cheapest (Some (Fin a)) (Some (Fin b)) = "AWS") /\
     (b < a -> _cheapest (Some (Fin a)) (Some (Fin b)) = "Azure") /\
     (a == b -> _cheapest (Some (Fin a)) (Some (Fin b)) = "Same")) /\
  _cheapest (Some (Fin 5)) None = "AWS" /\
  _cheapest None (Some (Fin 5)) = "Azure" /\
  _cheapest (Some (Fin 3)) (Some (Fin 3)) = "Same" /\
  _cheapest (Some (Fin 2)) (Some (Fin 3)) = "AWS".
Proof.
  split; [reflexivity|]. split; [intro; reflexivity|]. split; [intro; reflexivity|].
  split; [|repeat split].
  intros a b. split; [|split]; intro H; cbn [_cheapest py_lt].
  - apply qlt_spec in H. rewrite H. reflexivity.
  - assert (Hab : qlt a b = false) by (apply qlt_false; apply Qlt_le_weak; assumption).
    apply qlt_spec in H. rewrite Hab, H. reflexivity.
  - assert (Hab : qlt a b = false) by (apply qlt_false; rewrite H; apply Qle_refl).
    assert (Hba : qlt b a = false) by (apply qlt_false; rewrite H; apply Qle_refl).
    rewrite Hab, Hba. reflexivity.
Qed.

(** ** C10 *)

(** C10: [_fallback_zero] maps an absent value and [nan] to [0.0] and
    returns every other (finite) value unchanged. *)
Theorem C10_fallback_zero_cases :
  _fallback_zero None = Fin 0 /\
  _fallback_zero (Some NaN) = Fin 0 /\
  (forall q, _fallback_zero (Some (Fin q)) = Fin q).
Proof. repeat split. Qed.

(** ** C8 *)

(** C8, refuted: an override with surrounding blanks is not returned
    verbatim, and an unknown source code with surrounding blanks does not
    pass through unchanged; both are stripped. *)
Lemma C8_override_not_verbatim :
  map_azure_region "us-west-2" (Some " westus2 ") = "westus2" /\
  "westus2" <> " westus2 " /\
  map_azure_region " mars-1 " None = "mars-1" /\
  "mars-1" <> " mars-1 ".
Proof. repeat split; discriminate || reflexivity. Qed.

(** C8, as amended: an override that is non-empty after [strip] is returned
    stripped; otherwise the stripped source code is looked up in the table,
    and a code absent from it is returned stripped; the spec's example
    [map_region(x, "westus2") = "westus2"] holds for every [x]. *)
Theorem C8_map_azure_region_stripped :
  (forall x o, str_truthy (strip o) = true ->
     map_azure_region x (Some o) = strip o) /\
  (forall x o, str_truthy (strip o) = false ->
     map_azure_region x (Some o) = map_azure_region x None) /\
  (forall x, map_azure_region x None =
     dict_get AWS_TO_AZURE_REGION (strip x) (strip x)) /\
  (forall x, (forall v, ~ In (strip x, v) AWS_TO_AZURE_REGION) ->
     map_azure_region x None = strip x) /\
  (forall x, map_azure_region x (Some "westus2") = "westus2").
Proof.
  split; [|split; [|split; [|split]]].
  - intros x o H. cbn [map_azure_region].
    rewrite H, (str_truthy_strip o H). reflexivity.
  - intros x o H. cbn [map_azure_region]. rewrite H, andb_false_r. reflexivity.
  - intro x. reflexivity.
  - intros x H. cbn [map_azure_region]. apply dict_get_absent. assumption.
  - intro x. reflexivity.
Qed.

(** ** C2 *)

(** C2, refuted: a dimension billed per ["GB-Mo"] reaches the candidate set
    of the comparison pipeline, and here is its representative price. *)
Lemma C2_non_hourly_dimension_counts :
  let d := mkDim (Some "GB-Mo") (Some (Parsed (Fin (8 # 100)))) in
  let it := mkAwsItem [("JRTCKXETXF", [("JRTCKXETXF.6YS6EN2CT7", d)])] in
  In (Fin (8 # 100)) (flat_map aws_item_prices [it]) /\
  aws_eval (fun _ => Response 200 [it]) (aws_query [("service_code", vstr "AmazonS3")])
    = Ok (Some (Fin (8 # 100))).
Proof. split; [left; reflexivity | reflexivity]. Qed.

(** C2, as amended: the AWS extraction of the comparison pipeline does not
    look at units: what it takes from an item is the same whatever the unit
    labels of its dimensions, and from an item whose USD values all parse it
    takes the USD value of every dimension of every OnDemand term, in
    iteration order; the Azure extraction takes every item's parseable
    [retailPrice]. *)
Theorem C2_extraction_ignores_units :
  (forall it,
     ~ In (Some Unparseable) (usd_fields it) ->
     aws_item_prices it =
       flat_map (fun o => match o with Some (Parsed f) => [f] | _ => [] end)
                (usd_fields it)) /\
  (forall g it, aws_item_prices (relabel_units g it) = aws_item_prices it) /\
  (forall items,
     az_prices items =
       flat_map (fun it => match retailPrice it with Some (Parsed f) => [f] | _ => [] end)
                items).
Proof.
  split; [|split].
  - intros it. unfold aws_item_prices. induction (usd_fields it) as [|o l IH]; intro H.
    + reflexivity.
    + destruct o as [[f|]|]; simpl.
      * f_equal. apply IH. intro H'. apply H. right. assumption.
      * exfalso. apply H. left. reflexivity.
      * apply IH. intro H'. apply H. right. assumption.
  - intros g it. unfold aws_item_prices, usd_fields, relabel_units. cbn [ondemand].
    f_equal. induction (ondemand it) as [|[k t] r IH]; simpl; [reflexivity|].
    f_equal; [|exact IH]. rewrite map_map. reflexivity.
  - induction items as [|it r IH]; simpl; [reflexivity|].
    destruct (retailPrice it) as [[f|]|]; simpl; rewrite IH; reflexivity.
Qed.

(** ** C4 *)

Ltac run_endpoint :=
  repeat (unfold _min_price_from_aws, _min_price_from_azure, lift, tell, ret, raise in *;
          cbn [bind fst snd app] in *).

(** C4: in the VM scenario, with the AWS and the SKU-constrained Azure
    pipelines completing with prices [a] and [p]: when [p] is absent the
    Azure pipeline is issued once more, with the query of the first one
    minus its [sku_name] facet, and the response carries the broadened
    price [b] and the winner [_cheapest a b]; when [p] is present no second
    query is issued and the response carries [p]. *)
Theorem C4_vm_sku_broadening :
  forall aws_get az_get region azure_region instance_type azure_sku max_pages a p,
  let az_region := map_azure_region region azure_region in
  let qa := aws_query
    [("service_code", vstr "AmazonEC2"); ("region", vstr region);
     ("instance_type", vstr instance_type); ("operating_system", vstr "Linux");
     ("max_pages", vint max_pages)] in
  let qp := query
    [("service_name", vstr "Virtual%20Machines"); ("arm_region_name", vstr az_region);
     ("sku_name", vstr azure_sku); ("max_pages", vint max_pages)] in
  let qb := query
    [("service_name", vstr "Virtual%20Machines"); ("arm_region_name", vstr az_region);
     ("max_pages", vint max_pages)] in
  let r := compare_service aws_get az_get Vm region azure_region instance_type azure_sku
             max_pages in
  aws_eval aws_get qa = Ok a ->
  az_eval az_get qp = Ok p ->
  qb = filter (fun kv => negb (String.eqb (fst kv) "sku_name")) qp /\
  (p = None -> forall b, az_eval az_get qb = Ok b ->
     fst r = [AwsCall qa; AzCall qp; AzCall qb] /\
     exists c, snd r = Ok (Compared c) /\ price_usd (aws c) = a /\
               price_usd (azure c) = b /\ cheapest_provider c = _cheapest a b) /\
  (forall x, p = Some x ->
     fst r = [AwsCall qa; AzCall qp] /\
     exists c, snd r = Ok (Compared c) /\ price_usd (aws c) = a /\
               price_usd (azure c) = Some x /\ cheapest_provider c = _cheapest a (Some x)).
Proof.
  intros aws_get az_get region azure_region instance_type azure_sku max_pages a p
         az_region qa qp qb r Ha Hp.
  split; [reflexivity|]. split.
  - intros -> b Hb. subst r. unfold compare_service. fold az_region.
    run_endpoint. fold qa. rewrite Ha. cbn [bind fst snd app]. fold qp. rewrite Hp.
    cbn [bind fst snd app]. fold qb. rewrite Hb. cbn [bind fst snd app].
    split; [reflexivity|]. eexists. split; [reflexivity|]. auto.
  - intros x ->. subst r. unfold compare_service. fold az_region.
    run_endpoint. fold qa. rewrite Ha. cbn [bind fst snd app]. fold qp. rewrite Hp.
    cbn [bind fst snd app].
    split; [reflexivity|]. eexists. split; [reflexivity|]. auto.
Qed.

(** The VM scenario at the spec's input, with no [B1s] match on the Azure
    side: the broadened query is issued and its price is reported. *)
Lemma C4_vm_sku_broadening_witness :
  let r := compare_service (aws_fixture (104 # 10000)) (az_fixture_no_sku (96 # 10000))
             Vm "us-west-2" None "t3.micro" "B1s" 1 in
  List.length (fst r) = 3%nat /\
  exists c, snd r = Ok (Compared c) /\ price_usd (aws c) = Some (Fin (104 # 10000)) /\
            price_usd (azure c) = Some (Fin (96 # 10000)) /\
            cheapest_provider c = _cheapest (Some (Fin (104 # 10000))) (Some (Fin (96 # 10000))).
Proof.
  destruct (C4_vm_sku_broadening (aws_fixture (104 # 10000)) (az_fixture_no_sku (96 # 10000))
              "us-west-2" None "t3.micro" "B1s" 1 (Some (Fin (104 # 10000))) None
              eq_refl eq_refl) as (_ & H & _).
  destruct (H eq_refl (Some (Fin (96 # 10000))) eq_refl) as [Hl Hc].
  split; [rewrite Hl; reflexivity | exact Hc].
Defined.

(** ** C5 *)

Lemma cheapest_one_sided (a z : option pyfloat) :
  (a = None -> z <> None -> _cheapest a z = "Azure") /\
  (a <> None -> z = None -> _cheapest a z = "AWS").
Proof.
  split; intros H1 H2; destruct a, z; try congruence; reflexivity.
Qed.

Lemma fallback_view (i : list (string * option string)) (s1 s2 : option string)
    (a z : option pyfloat) :
  let c := mkComparison i (mkSide s1 (Some (_fallback_zero a)))
             (mkSide s2 (Some (_fallback_zero z))) (_cheapest a z) in
  price_usd (aws c) = Some (_fallback_zero a) /\
  price_usd (azure c) = Some (_fallback_zero z) /\
  cheapest_provider c = _cheapest a z /\
  (a = None -> price_usd (aws c) = Some (Fin 0)) /\
  (z = None -> price_usd (azure c) = Some (Fin 0)) /\
  (a = None -> z <> None -> cheapest_provider c = "Azure") /\
  (a <> None -> z = None -> cheapest_provider c = "AWS").
Proof.
  intro c. destruct (cheapest_one_sided a z) as [H1 H2].
  repeat split; auto; intros ->; reflexivity.
Qed.

(** C5: in the database and load-balancer scenarios, with the pipelines
    completing ([a] for AWS; for Azure [p] from the SKU query and, when
    [p] is absent, [p'] from the broadened one), the response displays
    [_fallback_zero] of the representative prices, so [0.0] for an absent
    one, while [cheapest_provider] is [_cheapest] of the representative
    prices themselves: when exactly one side has a price, that side wins. *)
Theorem C5_fallback_zero_display :
  (forall aws_get az_get region azure_region engine deployment license sku_name
          max_pages a p p',
   let az_region := map_azure_region region azure_region in
   let qa := aws_query
     [("service_code", vstr "AmazonRDS"); ("region", vstr region);
      ("database_engine", vstr engine); ("deployment_option", vstr deployment);
      ("license_model", vstr license); ("max_pages", vint max_pages)] in
   let qp := query
     [("service_name", vstr "SQL%20Database"); ("arm_region_name", vstr az_region);
      ("sku_name", vstr sku_name); ("max_pages", vint max_pages)] in
   let qb := query
     [("service_name", vstr "SQL%20Database"); ("arm_region_name", vstr az_region);
      ("max_pages", vint max_pages)] in
   let z := match p with None => p' | Some _ => p end in
   aws_eval aws_get qa = Ok a ->
   az_eval az_get qp = Ok p ->
   (p = None -> az_eval az_get qb = Ok p') ->
   exists c,
     snd (compare_db_sql aws_get az_get region azure_region engine deployment license
            sku_name max_pages) = Ok (Compared c) /\
     price_usd (aws c) = Some (_fallback_zero a) /\
     price_usd (azure c) = Some (_fallback_zero z) /\
     cheapest_provider c = _cheapest a z /\
     (a = None -> price_usd (aws c) = Some (Fin 0)) /\
     (z = None -> price_usd (azure c) = Some (Fin 0)) /\
     (a = None -> z <> None -> cheapest_provider c = "Azure") /\
     (a <> None -> z = None -> cheapest_provider c = "AWS")) /\
  (forall aws_get az_get region azure_region max_pages a z,
   let az_region := map_azure_region region azure_region in
   let qa := aws_query
     [("service_code", vstr "AWSELB"); ("region", vstr region);
      ("max_pages", vint max_pages)] in
   let qz := query
     [("service_name", vstr "Load%20Balancer"); ("arm_region_name", vstr az_region);
      ("max_pages", vint max_pages)] in
   aws_eval aws_get qa = Ok a ->
   az_eval az_get qz = Ok z ->
   exists c,
     snd (compare_load_balancer aws_get az_get region azure_region max_pages)
       = Ok (Compared c) /\
     price_usd (aws c) = Some (_fallback_zero a) /\
     price_usd (azure c) = Some (_fallback_zero z) /\
     cheapest_provider c = _cheapest a z /\
     (a = None -> price_usd (aws c) = Some (Fin 0)) /\
     (z = None -> price_usd (azure c) = Some (Fin 0)) /\
     (a = None -> z <> None -> cheapest_provider c = "Azure") /\
     (a <> None -> z = None -> cheapest_provider c = "AWS")).
Proof.
  split.
  - intros aws_get az_get region azure_region engine deployment license sku_name
           max_pages a p p' az_region qa qp qb z Ha Hp Hb.
    unfold compare_db_sql. fold az_region. run_endpoint.
    fold qa. rewrite Ha. cbn [bind fst snd app]. fold qp. rewrite Hp.
    cbn [bind fst snd app].
    destruct p as [x|]; cbn [bind fst snd app];
      [| run_endpoint; fold qb; rewrite (Hb eq_refl); cbn [bind fst snd app]];
      eexists; (split; [reflexivity|]); apply fallback_view.
  - intros aws_get az_get region azure_region max_pages a z az_region qa qz Ha Hz.
    unfold compare_load_balancer. fold az_region. run_endpoint.
    fold qa. rewrite Ha. cbn [bind fst snd app]. fold qz. rewrite Hz.
    cbn [bind fst snd app]. eexists. split; [reflexivity|]. apply fallback_view.
Qed.

(** The load-balancer scenario with the AWS side answering with an error
    status: AWS is displayed at [0.0] and Azure, the only side with a
    price, wins. *)
Lemma C5_fallback_zero_display_witness :
  exists c,
    snd (compare_load_balancer aws_down (az_fixture (25 # 1000)) "us-west-2" None 1)
      = Ok (Compared c) /\
    price_usd (aws c) = Some (Fin 0) /\ price_usd (azure c) = Some (Fin (25 # 1000)) /\
    cheapest_provider c = "Azure".
Proof.
  destruct (proj2 C5_fallback_zero_display aws_down (az_fixture (25 # 1000))
              "us-west-2" None 1%Z None (Some (Fin (25 # 1000))) eq_refl eq_refl)
    as (c & Hc & _ & Hz & _ & H0 & _ & Hw & _).
  exists c. split; [exact Hc|]. split; [apply H0; reflexivity|].
  split; [exact Hz | apply Hw; [reflexivity | discriminate]].
Defined.

(** ** C6 *)

(** C6: at the fetch boundary a non-200 response is an absent price; and
    in the block-storage scenario, with both pipelines completing with
    prices [a] and [z], the endpoint raises the 404 exactly when both are
    absent, and otherwise returns a comparison of [a] and [z]. *)
Theorem C6_block_storage_not_found :
  (forall aws_get q st body, aws_get q = Response st body -> st <> 200%Z ->
     aws_eval aws_get q = Ok None) /\
  (forall az_get q st body, az_get q = Response st body -> st <> 200%Z ->
     az_eval az_get q = Ok None) /\
  (forall aws_get az_get region azure_region volume_type sku_name max_pages a z,
   let az_region := map_azure_region region azure_region in
   let qa := aws_query
     [("service_code", vstr "AmazonEC2"); ("region", vstr region);
      ("volume_type", option_map PStr volume_type); ("max_pages", vint max_pages)] in
   let qz := query
     ([("service_name", vstr "Storage"); ("arm_region_name", vstr az_region)] ++
      match sku_name with
      | Some s => if str_truthy s then [("sku_name", vstr s)] else []
      | None => []
      end ++ [("max_pages", vint max_pages)])%list in
   let r := compare_block_storage aws_get az_get region azure_region volume_type sku_name
              max_pages in
   aws_eval aws_get qa = Ok a ->
   az_eval az_get qz = Ok z ->
   (snd r = Err (HTTPError 404) <-> a = None /\ z = None) /\
   (a <> None \/ z <> None ->
      exists c, snd r = Ok (Compared c) /\ price_usd (aws c) = a /\
                price_usd (azure c) = z /\ cheapest_provider c = _cheapest a z)).
Proof.
  split; [|split].
  - intros aws_get q st body H Hst. unfold aws_eval. rewrite H.
    apply Z.eqb_neq in Hst. rewrite Hst. reflexivity.
  - intros az_get q st body H Hst. unfold az_eval. rewrite H.
    apply Z.eqb_neq in Hst. rewrite Hst. reflexivity.
  - intros aws_get az_get region azure_region volume_type sku_name max_pages a z
           az_region qa qz r Ha Hz.
    assert (Hr : snd r = match a, z with
                         | None, None => Err (HTTPError 404)
                         | _, _ => Ok (Compared (mkComparison
                             [("aws_region", Some region); ("azure_region", Some az_region);
                              ("aws_volume_type", volume_type); ("azure_disk_sku", sku_name)]
                             (mkSide (Some "Amazon EBS (via EC2 pricing)") a)
                             (mkSide (Some "Managed Disks (via Storage)") z)
                             (_cheapest a z)))
                         end).
    { subst r. unfold compare_block_storage. fold az_region. run_endpoint.
      fold qa. rewrite Ha. cbn [bind fst snd app]. fold qz. rewrite Hz.
      cbn [bind fst snd app]. destruct a, z; reflexivity. }
    rewrite Hr. split.
    + destruct a, z; split; intro H; try discriminate; try (destruct H; discriminate);
        auto.
    + intros Hne. destruct a, z; [| | |destruct Hne; congruence];
        eexists; split; try reflexivity; auto.
Qed.

(** The block-storage scenario with both providers answering with error
    statuses (a 404), and with only Azure answering (a comparison that
    Azure wins). *)
Lemma C6_block_storage_not_found_witness :
  snd (compare_block_storage aws_down az_down "us-west-2" None (Some "gp3") None 1)
    = Err (HTTPError 404) /\
  exists c,
    snd (compare_block_storage aws_down (az_fixture (5 # 100)) "us-west-2" None
           (Some "gp3") None 1) = Ok (Compared c) /\
    cheapest_provider c = "Azure".
Proof.
  split.
  - destruct (proj2 (proj2 C6_block_storage_not_found) aws_down az_down "us-west-2" None
                (Some "gp3") None 1%Z None None eq_refl eq_refl) as [Hiff _].
    apply Hiff. split; reflexivity.
  - destruct (proj2 (proj2 C6_block_storage_not_found) aws_down (az_fixture (5 # 100))
                "us-west-2" None (Some "gp3") None 1%Z None (Some (Fin (5 # 100)))
                eq_refl eq_refl) as [_ Hok].
    destruct Hok as (c & Hc & _ & _ & Hw); [right; discriminate|].
    exists c. split; [exact Hc | rewrite Hw; reflexivity].
Defined.

(** ** C9 *)

(** C9, refuted: [max_pages = 7] is rejected by the VM comparison, and
    [max_pages = 3] by the coverage endpoint, before any fetch. *)
Lemma C9_page_bound_not_ten :
  handle (aws_fixture 1) (az_fixture 1) (RService Vm "t3.micro" "B1s") "us-west-2" None 7
    = ([], Err (HTTPError 422)) /\
  handle (aws_fixture 1) (az_fixture 1) RAzCoverage "us-west-2" None 3
    = ([], Err (HTTPError 422)).
Proof. split; reflexivity. Qed.

(** C9, as amended: every comparison route takes [max_pages] from 1 to 5
    and the coverage route from 1 to 2; a value outside its range is a 422
    with no call issued, and a value inside it runs the endpoint. *)
Theorem C9_page_bound_validated :
  forall aws_get az_get r region azure_region max_pages,
  max_pages_le r = (match r with RAzCoverage => 2 | _ => 5 end)%Z /\
  ((max_pages < 1 \/ max_pages_le r < max_pages)%Z ->
     handle aws_get az_get r region azure_region max_pages = ([], Err (HTTPError 422))) /\
  ((1 <= max_pages <= max_pages_le r)%Z ->
     handle aws_get az_get r region azure_region max_pages
       = endpoint_body aws_get az_get r region azure_region max_pages).
Proof.
  intros aws_get az_get r region azure_region max_pages.
  split; [destruct r; reflexivity|]. unfold handle, validated. split.
  - intros H. destruct (Z.leb 1 max_pages) eqn:E1, (Z.leb max_pages (max_pages_le r)) eqn:E2;
      try reflexivity.
    apply Z.leb_le in E1, E2. lia.
  - intros [H1 H2]. apply Z.leb_le in H1, H2. rewrite H1, H2. reflexivity.
Qed.

(** ** C7 *)

Lemma removelast_cons_ne {A} (x : A) (l : list A) :
  l <> [] -> removelast (x :: l) = x :: removelast l.
Proof. destruct l; [congruence | reflexivity]. Qed.

Lemma last_cons_ne {A} (x d : A) (l : list A) :
  l <> [] -> last (x :: l) d = last l d.
Proof. destruct l; [congruence | reflexivity]. Qed.

Section PaginationInvariants.

Variable get_products : nat -> option string -> aws_page.
Variable max_pages : Z.

(** The loop adds to [seen] the responses of this call on: none when the
    guard already fails; otherwise a non-empty run whose every response but
    the last carries a token, and whose last one carries none unless the
    bound was reached. *)
Lemma paginate_loop_inv : forall fuel pages token items seen,
  Z.of_nat (List.length seen) = pages ->
  Z.to_nat (max_pages - pages) = fuel ->
  (pages <= max_pages)%Z ->
  let seen' := snd (paginate_loop get_products max_pages fuel pages token items seen) in
  ((max_pages <= pages)%Z -> seen' = seen) /\
  ((pages < max_pages)%Z ->
     exists new, seen' = (seen ++ new)%list /\ new <> [] /\
       (List.length seen' <= Z.to_nat max_pages)%nat /\
       Forall (fun r => opt_truthy (NextToken r) = true) (removelast new) /\
       ((List.length seen' < Z.to_nat max_pages)%nat ->
          opt_truthy (NextToken (last new aws_dummy)) = false)).
Proof.
  induction fuel as [|fuel IH]; intros pages token items seen Hlen Hfuel Hle seen'.
  - split; [reflexivity|]. intro Hlt. lia.
  - split; [intro; lia|]. intro Hlt. subst seen'. cbn [paginate_loop].
    apply Z.ltb_lt in Hlt as Hb. rewrite Hb.
    set (resp := get_products (Z.to_nat pages) _).
    destruct (opt_truthy (NextToken resp)) eqn:T; cbn [negb].
    + assert (Hlen' : Z.of_nat (List.length (seen ++ [resp])) = (pages + 1)%Z)
        by (rewrite length_app; cbn [List.length]; lia).
      assert (Hfuel' : Z.to_nat (max_pages - (pages + 1)) = fuel) by lia.
      destruct (IH (pages + 1)%Z (NextToken resp) (items ++ PriceList resp)%list
                  (seen ++ [resp])%list Hlen' Hfuel' ltac:(lia)) as [Hstop Hgo].
      destruct (Z.eq_dec (pages + 1) max_pages) as [Heq|Hne].
      * rewrite Hstop by lia. exists [resp]. repeat split.
        -- discriminate.
        -- rewrite length_app. cbn [List.length]. lia.
        -- constructor.
        -- rewrite length_app. cbn [List.length]. lia.
      * destruct (Hgo ltac:(lia)) as (new & Hs & Hne' & Hl & Hf & Hlast).
        exists (resp :: new). split; [rewrite Hs, <- app_assoc; reflexivity|].
        repeat split.
        -- discriminate.
        -- exact Hl.
        -- rewrite removelast_cons_ne by exact Hne'. constructor; assumption.
        -- intro H. rewrite last_cons_ne by exact Hne'. apply Hlast. exact H.
    + cbn [snd]. exists [resp]. repeat split.
      * discriminate.
      * rewrite length_app. cbn [List.length]. lia.
      * constructor.
      * intro. exact T.
Qed.

End PaginationInvariants.

Section FetchInvariants.

Variable get : nat -> string -> outcome az_page.
Variable max_pages : Z.

(** The Azure loop's counterpart of [paginate_loop_inv]: all the responses
    but the last are 200s with a next link; when the loop returns items
    before reaching the bound, the last is a 200 without one. *)
Lemma fetch_loop_inv : forall fuel pages url items seen,
  Z.of_nat (List.length seen) = pages ->
  Z.to_nat (max_pages - pages) = fuel ->
  (pages <= max_pages)%Z ->
  let out := fetch_loop get max_pages fuel pages url items seen in
  (((max_pages <= pages)%Z \/ opt_truthy url = false) -> out = (Ok items, seen)) /\
  ((pages < max_pages)%Z -> opt_truthy url = true ->
     exists new, snd out = (seen ++ new)%list /\ new <> [] /\
       (List.length (snd out) <= Z.to_nat max_pages)%nat /\
       Forall (fun r => exists d, r = Response 200 d /\ opt_truthy (NextPageLink d) = true)
              (removelast new) /\
       ((exists v, fst out = Ok v) -> (List.length (snd out) < Z.to_nat max_pages)%nat ->
          exists d, last new Transport_error = Response 200 d /\
                    opt_truthy (NextPageLink d) = false)).
Proof.
  induction fuel as [|fuel IH]; intros pages url items seen Hlen Hfuel Hle out.
  - split; [reflexivity|]. intros Hlt. lia.
  - split.
    + intros [Hge|Hf]; [lia|]. subst out. cbn [fetch_loop].
      destruct url as [u|]; [|reflexivity]. cbn [opt_truthy] in Hf. rewrite Hf. reflexivity.
    + intros Hlt Ht. subst out. destruct url as [u|]; [|discriminate].
      cbn [opt_truthy] in Ht. cbn [fetch_loop]. apply Z.ltb_lt in Hlt as Hb. rewrite Ht, Hb.
      cbn [andb].
      assert (Hl1 : forall x, (List.length (seen ++ [x]) <= Z.to_nat max_pages)%nat)
        by (intro; rewrite length_app; cbn [List.length]; lia).
      destruct (get (Z.to_nat pages) u) as [|st data] eqn:Hget.
      * cbn [fst snd]. exists [Transport_error].
        split; [reflexivity|]. split; [discriminate|]. split; [apply Hl1|].
        split; [constructor|]. intros [v Hv]. discriminate.
      * destruct (Z.eqb st 200) eqn:Hst; cbn [negb].
        2:{ cbn [fst snd]. exists [Response st data].
            split; [reflexivity|]. split; [discriminate|]. split; [apply Hl1|].
            split; [constructor|]. intros [v Hv]. discriminate. }
        apply Z.eqb_eq in Hst. subst st.
        assert (Hlen' : Z.of_nat (List.length (seen ++ [Response 200 data])) = (pages + 1)%Z)
          by (rewrite length_app; cbn [List.length]; lia).
        assert (Hfuel' : Z.to_nat (max_pages - (pages + 1)) = fuel) by lia.
        destruct (IH (pages + 1)%Z (NextPageLink data) (items ++ Items data)%list
                    (seen ++ [Response 200 data])%list Hlen' Hfuel' ltac:(lia))
          as [Hstop Hgo].
        destruct (opt_truthy (NextPageLink data)) eqn:Hlink.
        -- destruct (Z.eq_dec (pages + 1) max_pages) as [Heq|Hne].
           ++ rewrite Hstop by (left; lia). cbn [fst snd].
              exists [Response 200 data].
              split; [reflexivity|]. split; [discriminate|]. split; [apply Hl1|].
              split; [constructor|]. intros _ H. rewrite length_app in H. cbn [List.length] in H. lia.
           ++ destruct (Hgo ltac:(lia) eq_refl) as (new & Hs & Hne' & Hl & Hf & Hlast).
              exists (Response 200 data :: new).
              split; [rewrite Hs, <- app_assoc; reflexivity|].
              split; [discriminate|]. split; [exact Hl|]. split.
              ** rewrite removelast_cons_ne by exact Hne'. constructor; [|exact Hf].
                 exists data. split; [reflexivity|exact Hlink].
              ** intros Hv H. rewrite last_cons_ne by exact Hne'. apply Hlast; assumption.
        -- rewrite Hstop by (right; reflexivity). cbn [fst snd].
           exists [Response 200 data].
           split; [reflexivity|]. split; [discriminate|]. split; [apply Hl1|].
           split; [constructor|]. intros _ _. exists data. split; [reflexivity|exact Hlink].
Qed.

End FetchInvariants.

(** C7: for [max_pages >= 1], both fetch loops consume between one and
    [max_pages] pages whatever the feed does; every page before the last
    carried a continuation cursor (so the loop stops at the first page
    without one), and when fewer than [max_pages] pages were consumed and
    the loop returned items, the last page carried no cursor. *)
Theorem C7_pagination_bounded :
  (forall get_products max_pages, (1 <= max_pages)%Z ->
   let seen := snd (get_products_paginated get_products max_pages) in
   (1 <= List.length seen <= Z.to_nat max_pages)%nat /\
   Forall (fun r => opt_truthy (NextToken r) = true) (removelast seen) /\
   ((List.length seen < Z.to_nat max_pages)%nat ->
      opt_truthy (NextToken (last seen aws_dummy)) = false)) /\
  (forall get max_pages q, (1 <= max_pages)%Z ->
   let out := fetch get max_pages q in
   (1 <= List.length (snd out) <= Z.to_nat max_pages)%nat /\
   Forall (fun r => exists d, r = Response 200 d /\ opt_truthy (NextPageLink d) = true)
          (removelast (snd out)) /\
   ((exists v, fst out = Ok v) -> (List.length (snd out) < Z.to_nat max_pages)%nat ->
      exists d, last (snd out) Transport_error = Response 200 d /\
                opt_truthy (NextPageLink d) = false)).
Proof.
  split.
  - intros get_products max_pages Hm seen.
    destruct (paginate_loop_inv get_products max_pages (Z.to_nat max_pages) 0 None [] []
                eq_refl ltac:(f_equal; lia) ltac:(lia)) as [_ Hgo].
    destruct (Hgo ltac:(lia)) as (new & Hs & Hne & Hl & Hf & Hlast).
    cbn [app] in Hs. unfold seen, get_products_paginated. rewrite Hs in *.
    split; [|split; [exact Hf|exact Hlast]].
    split; [|exact Hl]. destruct new; [congruence|cbn [List.length]; lia].
  - intros get max_pages q Hm out.
    assert (Hu : opt_truthy (Some (if str_truthy q then (BASE ++ "?" ++ q)%string else BASE))
                 = true) by (destruct (str_truthy q); reflexivity).
    destruct (fetch_loop_inv get max_pages (Z.to_nat max_pages) 0
                (Some (if str_truthy q then (BASE ++ "?" ++ q)%string else BASE)) [] []
                eq_refl ltac:(f_equal; lia) ltac:(lia)) as [_ Hgo].
    destruct (Hgo ltac:(lia) Hu) as (new & Hs & Hne & Hl & Hf & Hlast).
    cbn [app] in Hs. unfold out, fetch. rewrite Hs in *.
    split; [|split; [exact Hf|exact Hlast]].
    split; [|exact Hl]. destruct new; [congruence|cbn [List.length]; lia].
Qed.

(** Feeds that supply a continuation on every page: with [max_pages = 3]
    each loop stops after at most three pages. *)
Lemma C7_pagination_bounded_witness :
  (1 <= List.length (snd (get_products_paginated endless_feed 3)) <= 3)%nat /\
  (1 <= List.length (snd (fetch endless_azure 3 "serviceName eq 'DNS'")) <= 3)%nat.
Proof.
  split.
  - exact (proj1 (proj1 C7_pagination_bounded endless_feed 3%Z ltac:(lia))).
  - exact (proj1 (proj2 C7_pagination_bounded endless_azure 3%Z "serviceName eq 'DNS'"
                    ltac:(lia))).
Defined.

(** * Further properties of the code *)

(** ** The fetch loops: items and request threading *)

Lemma paginate_loop_chain (get_products : nat -> option string -> aws_page) (max_pages : Z) :
  forall fuel pages token items seen,
  (0 <= pages)%Z ->
  let out := paginate_loop get_products max_pages fuel pages token items seen in
  exists new, snd out = (seen ++ new)%list /\
    fst out = (items ++ flat_map PriceList new)%list /\
    aws_chain get_products (Z.to_nat pages) token new.
Proof.
  induction fuel as [|fuel IH]; intros pages token items seen Hp out.
  - exists []. rewrite !app_nil_r. repeat split.
  - subst out. cbn [paginate_loop].
    destruct (Z.ltb pages max_pages).
    2:{ exists []. rewrite !app_nil_r. repeat split. }
    set (resp := get_products (Z.to_nat pages) _).
    destruct (opt_truthy (NextToken resp)) eqn:T; cbn [negb].
    + destruct (IH (pages + 1)%Z (NextToken resp) (items ++ PriceList resp)%list
                  (seen ++ [resp])%list ltac:(lia)) as (new & H1 & H2 & H3).
      exists (resp :: new). rewrite H1, H2, <- !app_assoc. repeat split.
      replace (Z.to_nat (pages + 1)) with (Datatypes.S (Z.to_nat pages)) in H3 by lia.
      exact H3.
    + exists [resp]. cbn [fst snd flat_map]. rewrite app_nil_r. repeat split.
Qed.

Lemma fetch_loop_chain (get : nat -> string -> outcome az_page) (max_pages : Z) :
  forall fuel pages u items seen,
  (0 <= pages)%Z ->
  let out := fetch_loop get max_pages fuel pages (Some u) items seen in
  exists new, snd out = (seen ++ new)%list /\
    az_chain get (Z.to_nat pages) u new /\
    ((exists v, fst out = Ok v) ->
       fst out = Ok (items ++ flat_map page_items new)%list /\
       Forall (fun r => exists d, r = Response 200 d) new) /\
    (forall e, fst out = Err e ->
       new <> [] /\ Forall (fun r => exists d, r = Response 200 d) (removelast new) /\
       match last new Transport_error with
       | Transport_error => e = ClientRaised
       | Response st _ => e = HTTPError st /\ st <> 200%Z
       end).
Proof.
  induction fuel as [|fuel IH]; intros pages u items seen Hp out.
  - exists []. rewrite app_nil_r. split; [reflexivity|]. split; [exact I|].
    split; [intros _; rewrite app_nil_r; split; [reflexivity|constructor]|].
    intros e He. discriminate.
  - subst out. cbn [fetch_loop].
    destruct (str_truthy u && Z.ltb pages max_pages).
    2:{ exists []. rewrite app_nil_r. split; [reflexivity|]. split; [exact I|].
        split; [intros _; rewrite app_nil_r; split; [reflexivity|constructor]|].
        intros e He. discriminate. }
    destruct (get (Z.to_nat pages) u) as [|st data] eqn:Hget.
    + exists [Transport_error]. split; [reflexivity|]. split; [split; [auto|exact I]|].
      split; [intros [v Hv]; discriminate|].
      intros e He. injection He as <-. split; [discriminate|]. split; [constructor|reflexivity].
    + destruct (Z.eqb st 200) eqn:Hst; cbn [negb].
      2:{ exists [Response st data]. split; [reflexivity|].
          split; [split; [auto|exact I]|].
          split; [intros [v Hv]; discriminate|].
          intros e He. injection He as <-. split; [discriminate|].
          split; [constructor|]. split; [reflexivity|]. apply Z.eqb_neq. exact Hst. }
      apply Z.eqb_eq in Hst. subst st.
      destruct (NextPageLink data) as [u'|] eqn:Hlink.
      * destruct (IH (pages + 1)%Z u' (items ++ Items data)%list
                    (seen ++ [Response 200 data])%list ltac:(lia))
          as (new & H1 & H2 & H3 & H4).
        exists (Response 200 data :: new). rewrite H1, <- app_assoc.
        split; [reflexivity|]. split.
        { split; [auto|]. destruct new as [|r new']; [exact I|].
          rewrite Hlink. replace (Z.to_nat (pages + 1)) with (Datatypes.S (Z.to_nat pages))
            in H2 by lia. exact H2. }
        split.
        { intros Hv. destruct (H3 Hv) as [H5 H6]. rewrite H5. cbn [flat_map page_items].
          rewrite <- app_assoc. split; [reflexivity|]. constructor; [eexists; reflexivity|exact H6]. }
        { intros e He. destruct (H4 e He) as (Hne & Hf & Hl). split; [discriminate|].
          rewrite removelast_cons_ne, last_cons_ne by exact Hne. split; [|exact Hl].
          constructor; [eexists; reflexivity|exact Hf]. }
      * exists [Response 200 data].
        destruct fuel; cbn [fetch_loop fst snd]; split; try reflexivity;
          (split; [split; [auto|exact I]|]);
          (split; [intros _; cbn [flat_map page_items]; rewrite app_nil_r;
                   split; [reflexivity|constructor; [eexists; reflexivity|constructor]]|]);
          intros e He; discriminate.
Qed.

(** The AWS fetch loop returns the PriceList strings of the pages it read,
    in order, and its first call sends no token while every later call
    sends the [NextToken] of the page before. *)
Theorem aws_pagination_threading : forall get_products max_pages,
  let out := get_products_paginated get_products max_pages in
  fst out = flat_map PriceList (snd out) /\
  aws_chain get_products 0 None (snd out).
Proof.
  intros get_products max_pages out.
  destruct (paginate_loop_chain get_products max_pages (Z.to_nat max_pages) 0 None [] []
              (Z.le_refl 0)) as (new & H1 & H2 & H3).
  subst out. unfold get_products_paginated. rewrite H1, H2. cbn [app].
  split; [reflexivity | exact H3].
Qed.

(** [fetch] reads the first page at [BASE], or at [BASE?query] for a
    non-empty query, and each later page at the [NextPageLink] of the page
    before. On success it returns the items of the pages read, in order,
    and every page it read had status 200. On failure the last page read is
    the one that failed (status [st <> 200] gives [HTTPError st]; a client
    exception gives [ClientRaised]), every page before it had status 200,
    and the items already collected are dropped. *)
Theorem fetch_pages : forall get max_pages q,
  let out := fetch get max_pages q in
  az_chain get 0 (if str_truthy q then (BASE ++ "?" ++ q)%string else BASE) (snd out) /\
  (forall items, fst out = Ok items ->
     items = flat_map page_items (snd out) /\
     Forall (fun r => exists d, r = Response 200 d) (snd out)) /\
  (forall e, fst out = Err e ->
     snd out <> [] /\
     Forall (fun r => exists d, r = Response 200 d) (removelast (snd out)) /\
     match last (snd out) Transport_error with
     | Transport_error => e = ClientRaised
     | Response st _ => e = HTTPError st /\ st <> 200%Z
     end).
Proof.
  intros get max_pages q out.
  destruct (fetch_loop_chain get max_pages (Z.to_nat max_pages) 0
              (if str_truthy q then (BASE ++ "?" ++ q)%string else BASE) [] []
              (Z.le_refl 0)) as (new & H1 & H2 & H3 & H4).
  subst out. unfold fetch. rewrite H1. cbn [app].
  split; [exact H2|]. split.
  - intros items Hi. destruct (H3 (ex_intro _ items Hi)) as [H5 H6].
    rewrite Hi in H5. injection H5 as H5. split; [exact H5 | exact H6].
  - exact H4.
Qed.

(** ** The aggregator and the comparator on all floats *)

Lemma py_min_in (l : list pyfloat) : forall x, py_min x l = x \/ In (py_min x l) l.
Proof.
  induction l as [|a l IH]; intro x; [left; reflexivity|].
  unfold py_min; cbn [fold_left]. fold (py_min (if py_lt a x then a else x) l).
  destruct (IH (if py_lt a x then a else x)) as [H|H].
  - rewrite H. destruct (py_lt a x); [right; left; reflexivity | left; reflexivity].
  - right; right; exact H.
Qed.

(** On any list of floats, [nan] included, [_min_nonzero_or_none] returns
    one of the list's own values, a strictly positive one whenever the
    list has one, and [None] exactly on the empty list. *)
Theorem min_nonzero_or_none_member : forall l : list pyfloat,
  (forall x, _min_nonzero_or_none l = Some x ->
     In x l /\ (existsb (py_lt (Fin 0)) l = true -> py_lt (Fin 0) x = true)) /\
  (_min_nonzero_or_none l = None <-> l = []).
Proof.
  intro l. unfold _min_nonzero_or_none. cbv zeta.
  destruct (filter (fun v => py_lt (Fin 0) v) l) as [|c cs] eqn:E.
  - split.
    + intros x Hx. destruct l as [|v vs]; [discriminate|]. injection Hx as <-. split.
      * destruct (py_min_in vs v) as [H|H]; [rewrite H; left; reflexivity | right; exact H].
      * intro Hex. exfalso. apply existsb_exists in Hex as (w & Hw & Hp).
        assert (Hf : In w (filter (fun v => py_lt (Fin 0) v) (v :: vs)))
          by (apply filter_In; split; assumption).
        rewrite E in Hf. destruct Hf.
    + destruct l; split; intro H; first [reflexivity | discriminate].
  - split.
    + intros x Hx. injection Hx as <-.
      assert (Hin : In (py_min c cs) (filter (fun v => py_lt (Fin 0) v) l)).
      { rewrite E. destruct (py_min_in cs c) as [H|H];
          [left; symmetry; exact H | right; exact H]. }
      apply filter_In in Hin as [H1 H2]. split; [exact H1 | intros _; exact H2].
    + split; intro H; [discriminate|]. subst l. discriminate E.
Qed.

Lemma py_lt_asym (x y : pyfloat) : py_lt x y = true -> py_lt y x = false.
Proof.
  destruct x as [a|], y as [b|]; cbn [py_lt]; try reflexivity; try discriminate.
  intro H. apply qlt_spec in H. apply qlt_false. apply Qlt_le_weak. exact H.
Qed.

(** [_cheapest] is symmetric: swapping the two providers turns ["AWS"]
    into ["Azure"] and keeps ["Same"]; it answers nothing else, also with
    [nan] on either side. *)
Theorem cheapest_symmetric : forall a z : option pyfloat,
  (_cheapest a z = "AWS" <-> _cheapest z a = "Azure") /\
  (_cheapest a z = "Same" <-> _cheapest z a = "Same") /\
  In (_cheapest a z) ["Same"; "AWS"; "Azure"].
Proof.
  intros [x|] [y|]; cbn [_cheapest].
  - destruct (py_lt x y) eqn:E1, (py_lt y x) eqn:E2.
    + apply py_lt_asym in E1. congruence.
    + split; [split; intro; reflexivity|]. split; [split; intro H; discriminate H|].
      right; left; reflexivity.
    + split; [split; intro H; discriminate H|]. split; [split; intro H; discriminate H|].
      right; right; left; reflexivity.
    + split; [split; intro H; discriminate H|]. split; [split; intro; reflexivity|].
      left; reflexivity.
  - split; [split; intro; reflexivity|]. split; [split; intro H; discriminate H|].
    right; left; reflexivity.
  - split; [split; intro H; discriminate H|]. split; [split; intro H; discriminate H|].
    right; right; left; reflexivity.
  - split; [split; intro H; discriminate H|]. split; [split; intro; reflexivity|].
    left; reflexivity.
Qed.

(** ** Whitespace around the regions *)

Lemma list_ascii_of_string_app' (a b : string) :
  list_ascii_of_string (a ++ b) = (list_ascii_of_string a ++ list_ascii_of_string b)%list.
Proof. induction a as [|c a IH]; cbn; [reflexivity | rewrite IH; reflexivity]. Qed.

Lemma lstrip_spaces_l (a l : list ascii) :
  forallb is_space a = true -> lstrip_list (a ++ l) = lstrip_list l.
Proof.
  induction a as [|c a IH]; intro H; [reflexivity|].
  cbn [forallb] in H. apply andb_prop in H as [H1 H2].
  cbn [app lstrip_list]. rewrite H1. apply IH, H2.
Qed.

Lemma lstrip_spaces_r (l b : list ascii) :
  forallb is_space b = true ->
  lstrip_list (l ++ b) = match lstrip_list l with [] => [] | _ => (lstrip_list l ++ b)%list end.
Proof.
  intro Hb. induction l as [|c l IH].
  - cbn [app lstrip_list]. rewrite <- (app_nil_r b) at 1. rewrite lstrip_spaces_l by exact Hb.
    reflexivity.
  - cbn [app lstrip_list]. destruct (is_space c); [exact IH | reflexivity].
Qed.

Lemma forallb_rev {A} (f : A -> bool) (l : list A) :
  forallb f (rev l) = forallb f l.
Proof.
  induction l as [|a l IH]; [reflexivity|]. cbn [rev forallb].
  rewrite forallb_app, IH. cbn [forallb]. rewrite andb_true_r, andb_comm. reflexivity.
Qed.

Lemma strip_pad (pre s post : string) :
  forallb is_space (list_ascii_of_string pre) = true ->
  forallb is_space (list_ascii_of_string post) = true ->
  strip (pre ++ s ++ post) = strip s.
Proof.
  intros Hpre Hpost. unfold strip.
  rewrite !list_ascii_of_string_app', lstrip_spaces_l by exact Hpre.
  rewrite lstrip_spaces_r by exact Hpost.
  destruct (lstrip_list (list_ascii_of_string s)) as [|c r]; [reflexivity|].
  rewrite rev_app_distr, lstrip_spaces_l by (rewrite forallb_rev; exact Hpost).
  reflexivity.
Qed.

Lemma str_truthy_app (a b c : string) :
  str_truthy b = true -> str_truthy (a ++ b ++ c) = true.
Proof. destruct a; [destruct b; [discriminate | reflexivity] | reflexivity]. Qed.

(** [map_azure_region] gives the same region when blanks (in the sense of
    [str.isspace]) are added around the AWS region and around the
    override: both are only ever read through [strip]. *)
Theorem map_azure_region_blank_padding :
  forall p1 p2 q1 q2 region azure_region,
  forallb is_space (list_ascii_of_string p1) = true ->
  forallb is_space (list_ascii_of_string p2) = true ->
  forallb is_space (list_ascii_of_string q1) = true ->
  forallb is_space (list_ascii_of_string q2) = true ->
  map_azure_region (p1 ++ region ++ p2) (option_map (fun a => q1 ++ a ++ q2) azure_region)
    = map_azure_region region azure_region.
Proof.
  intros p1 p2 q1 q2 region azure_region H1 H2 H3 H4. unfold map_azure_region.
  rewrite (strip_pad p1 region p2 H1 H2).
  destruct azure_region as [a|]; cbn [option_map]; [|reflexivity].
  rewrite (strip_pad q1 a q2 H3 H4).
  destruct (str_truthy (strip a)) eqn:E.
  - rewrite (str_truthy_strip a E). rewrite (str_truthy_app q1 a q2 (str_truthy_strip a E)).
    reflexivity.
  - rewrite !andb_false_r. reflexivity.
Qed.

Lemma map_azure_region_blank_padding_witness :
  forallb is_space (list_ascii_of_string " ") = true /\
  forallb is_space (list_ascii_of_string "	") = true /\
  map_azure_region (" " ++ "eu-west-2" ++ "	") (option_map (fun a => " " ++ a ++ "	") (Some ""))
    = map_azure_region "eu-west-2" (Some "").
Proof.
  split; [reflexivity|]. split; [reflexivity|].
  apply map_azure_region_blank_padding; reflexivity.
Defined.

(** ** [to_location] and [build_filters] *)

(** [to_location] gives [None] for a missing or empty region; it maps a
    known code, blanks around it allowed, to its marketing name; it keeps
    every marketing name of the table as it is; and it returns any other
    non-empty input stripped. *)
Theorem to_location_cases :
  to_location None = None /\
  to_location (Some "") = None /\
  (forall x k v, In (k, v) REGION_CODE_TO_LOCATION -> strip x = k ->
     to_location (Some x) = Some v) /\
  (forall k v, In (k, v) REGION_CODE_TO_LOCATION -> to_location (Some v) = Some v) /\
  (forall x, str_truthy x = true -> (forall v, ~ In (strip x, v) REGION_CODE_TO_LOCATION) ->
     to_location (Some x) = Some (strip x)).
Proof.
  split; [reflexivity|]. split; [reflexivity|]. split; [|split].
  - intros x k v Hin Hs. unfold to_location.
    assert (Hx : str_truthy x = true).
    { apply str_truthy_strip. rewrite Hs.
      repeat (destruct Hin as [Hin|Hin]; [injection Hin as <- <-; reflexivity|]).
      destruct Hin. }
    rewrite Hx, Hs.
    repeat (destruct Hin as [Hin|Hin]; [injection Hin as <- <-; reflexivity|]).
    destruct Hin.
  - intros k v Hin.
    repeat (destruct Hin as [Hin|Hin]; [injection Hin as <- <-; reflexivity|]).
    destruct Hin.
  - intros x Hx Hn. unfold to_location. rewrite Hx. cbv zeta.
    rewrite dict_get_absent by exact Hn. reflexivity.
Qed.

(** A region that is blank after [strip] adds no location filter: the
    request is filtered as with no region at all. *)
Theorem blank_region_no_location_filter :
  forall region instance_type operating_system tenancy pre_installed_sw capacity_status,
  strip region = "" ->
  build_filters (to_location (Some region)) instance_type operating_system tenancy
    pre_installed_sw capacity_status
  = build_filters None instance_type operating_system tenancy pre_installed_sw
      capacity_status.
Proof.
  intros region i o t p c Hs. unfold build_filters. f_equal.
  unfold to_location. destruct (str_truthy region); [cbv zeta; rewrite Hs|]; reflexivity.
Qed.

Lemma blank_region_no_location_filter_witness :
  strip "   " = "" /\
  build_filters (to_location (Some "   ")) (Some "t3.micro") None None None None
    = build_filters None (Some "t3.micro") None None None None.
Proof.
  split; [reflexivity|]. apply blank_region_no_location_filter. reflexivity.
Defined.

Lemma add_filter_pairs (f : string) (v : option string) :
  map (fun x => (Field x, Some (Value x))) (add_filter f v)
    = filter (fun fv => opt_truthy (snd fv)) [(f, v)] /\
  Forall (fun x => Type_ x = "TERM_MATCH" /\ str_truthy (Value x) = true) (add_filter f v).
Proof.
  destruct v as [s|]; cbn [add_filter filter snd opt_truthy]; [|split; [reflexivity | constructor]].
  destruct (str_truthy s) eqn:E; (split; [reflexivity|]); repeat constructor; exact E.
Qed.

Lemma filter_fields_nodup {A B} (sel : A -> bool) (fld : A -> B) :
  forall xs, NoDup (map fld xs) -> NoDup (map fld (filter sel xs)).
Proof.
  intro xs; induction xs as [|x rest IHrest]; cbn; intro Hnd; [exact Hnd|].
  apply NoDup_cons_iff in Hnd as [Hout Hrest].
  specialize (IHrest Hrest).
  destruct (sel x); [|exact IHrest].
  cbn; apply NoDup_cons_iff; split; [|exact IHrest].
  rewrite in_map_iff; intros (z & Hz & Hzin); apply Hout.
  rewrite filter_In in Hzin; rewrite <- Hz; apply in_map, Hzin.
Qed.

(** [build_filters] is exactly the given, non-empty facets, in the order
    location, instanceType, operatingSystem, tenancy, preInstalledSw,
    capacitystatus, each pinned to its value by a [TERM_MATCH]: no filter
    has an empty value and no field is filtered twice. *)
Theorem build_filters_facets :
  forall location instance_type operating_system tenancy pre_installed_sw capacity_status,
  let facets := [("location", location); ("instanceType", instance_type);
                 ("operatingSystem", operating_system); ("tenancy", tenancy);
                 ("preInstalledSw", pre_installed_sw); ("capacitystatus", capacity_status)] in
  let fs := build_filters location instance_type operating_system tenancy pre_installed_sw
              capacity_status in
  map (fun x => (Field x, Some (Value x))) fs = filter (fun fv => opt_truthy (snd fv)) facets /\
  Forall (fun x => Type_ x = "TERM_MATCH" /\ str_truthy (Value x) = true) fs /\
  NoDup (map Field fs).
Proof.
  intros l i o t p c facets fs.
  assert (Hm : map (fun x => (Field x, Some (Value x))) fs
                 = filter (fun fv => opt_truthy (snd fv)) facets).
  { subst fs facets. unfold build_filters. rewrite !map_app.
    rewrite !(fun f v => proj1 (add_filter_pairs f v)).
    change [("location", l); ("instanceType", i); ("operatingSystem", o);
            ("tenancy", t); ("preInstalledSw", p); ("capacitystatus", c)]
      with ([("location", l)] ++ [("instanceType", i)] ++ [("operatingSystem", o)] ++
            [("tenancy", t)] ++ [("preInstalledSw", p)] ++ [("capacitystatus", c)])%list.
    rewrite !filter_app. reflexivity. }
  split; [exact Hm|]. split.
  - subst fs. unfold build_filters. rewrite !Forall_app.
    repeat split; apply (fun f v => proj2 (add_filter_pairs f v)).
  - assert (Hf : map Field fs = map fst (filter (fun fv => opt_truthy (snd fv)) facets)).
    { rewrite <- Hm, map_map. reflexivity. }
    rewrite Hf. apply filter_fields_nodup. subst facets. cbn [map fst].
    repeat (apply NoDup_cons; [cbn [In]; intro Hin;
              repeat (destruct Hin as [Hin|Hin]; [discriminate Hin|]); exact Hin|]).
    apply NoDup_nil.
Qed.

(** ** The Azure query *)

Lemma add_clause_length (n : string) (v : option string) :
  List.length (add_clause n v) = List.length (filter opt_truthy [v]).
Proof. destruct v as [s|]; cbn; [destruct (str_truthy s)|]; reflexivity. Qed.

Lemma add_clause_as_map (n : string) (v : option string) :
  add_clause n v = map odata_clause (filter (fun nv => opt_truthy (snd nv)) [(n, v)]).
Proof. destruct v as [s|]; cbn; [destruct (str_truthy s)|]; reflexivity. Qed.

Lemma prefix_app (s t : string) : String.prefix s (s ++ t) = true.
Proof.
  induction s as [|a s IH]; [destruct t; reflexivity|]. cbn [append String.prefix].
  destruct (ascii_dec a a); [exact IH | congruence].
Qed.

Lemma quote_plus_filter_key : quote_plus "$filter" = "%24filter".
Proof. reflexivity. Qed.

(** The Azure [get_prices] builds one OData clause
    [{name} eq '{value}'] per given, non-empty facet, in the order of the
    facets, and its query is their [" and "]-join, URL-encoded; the query
    is empty (and [fetch] then reads [BASE] itself) exactly when no facet
    is given, and otherwise starts with [%24filter=]. *)
Theorem azure_query_facets :
  forall service_name arm_region_name sku_name meter_name price_type currency_code,
  let facets := [service_name; arm_region_name; sku_name; meter_name; price_type;
                 currency_code] in
  let q := azure_query service_name arm_region_name sku_name meter_name price_type
             currency_code in
  let given := filter (fun nv => opt_truthy (snd nv))
                 (az_facets service_name arm_region_name sku_name meter_name price_type
                    currency_code) in
  azure_filters service_name arm_region_name sku_name meter_name price_type currency_code
    = map odata_clause given /\
  (q <> "" -> q = urlencode_filter (join " and " (map odata_clause given))) /\
  List.length (azure_filters service_name arm_region_name sku_name meter_name price_type
                 currency_code) = List.length (filter opt_truthy facets) /\
  (q = "" <-> filter opt_truthy facets = []) /\
  (q <> "" -> String.prefix "%24filter=" q = true) /\
  (if str_truthy q then (BASE ++ "?" ++ q)%string else BASE) =
    (match filter opt_truthy facets with [] => BASE | _ => BASE ++ "?" ++ q end)%string.
Proof.
  intros s a k m p c facets q given.
  assert (Hf : azure_filters s a k m p c = map odata_clause given).
  { subst given. unfold azure_filters, az_facets.
    change (filter _ [?x1; ?x2; ?x3; ?x4; ?x5; ?x6])
      with (filter (fun nv => opt_truthy (snd nv)) ([x1] ++ [x2] ++ [x3] ++ [x4] ++ [x5] ++ [x6])%list).
    rewrite !filter_app, !map_app, !add_clause_as_map. reflexivity. }
  split; [exact Hf|].
  split; [intro Hne; subst q; unfold azure_query in *; rewrite <- Hf;
          destruct (azure_filters s a k m p c); [contradiction | reflexivity]|].
  assert (Hl : List.length (azure_filters s a k m p c) = List.length (filter opt_truthy facets)).
  { unfold azure_filters. rewrite !length_app, !add_clause_length. subst facets.
    change [s; a; k; m; p; c] with ([s] ++ [a] ++ [k] ++ [m] ++ [p] ++ [c])%list.
    rewrite !filter_app, !length_app. reflexivity. }
  assert (Hq : q = "" <-> filter opt_truthy facets = []).
  { subst q. unfold azure_query. destruct (azure_filters s a k m p c) as [|f fs] eqn:E.
    - cbn [List.length] in Hl. split; intros _; [|reflexivity].
      apply length_zero_iff_nil. symmetry. exact Hl.
    - split; intro H.
      + unfold urlencode_filter in H. rewrite quote_plus_filter_key in H. discriminate H.
      + rewrite H in Hl. discriminate Hl. }
  split; [exact Hl|]. split; [exact Hq|]. split.
  - intro Hne. subst q. unfold azure_query in *.
    destruct (azure_filters s a k m p c); [contradiction|].
    unfold urlencode_filter. rewrite quote_plus_filter_key.
    change ("%24filter" ++ "=" ++ ?x)%string with ("%24filter=" ++ x)%string.
    apply prefix_app.
  - clearbody q. destruct (filter opt_truthy facets) as [|x xs] eqn:E.
    + rewrite (proj2 Hq eq_refl). reflexivity.
    + destruct q as [|ch q']; [|reflexivity].
      discriminate (proj1 Hq eq_refl).
Qed.

(** [count] of the Azure [/prices] answer is the number of items of all
    the pages read, and the items are those pages' items in order. *)
Theorem azure_get_prices_count : forall get service_name arm_region_name sku_name meter_name
    price_type currency_code max_pages n items,
  let out := azure_get_prices get service_name arm_region_name sku_name meter_name price_type
               currency_code max_pages in
  fst out = Ok (n, items) ->
  n = List.length items /\ items = flat_map page_items (snd out) /\
  Forall (fun r => exists d, r = Response 200 d) (snd out).
Proof.
  intros get sn arn sku mn pt cc mp n items out H. subst out.
  unfold azure_get_prices, fetch in *. cbv zeta in *.
  set (q := azure_query sn arn sku mn pt cc) in *.
  destruct (fetch_loop_chain get mp (Z.to_nat mp) 0
              (if str_truthy q then (BASE ++ "?" ++ q)%string else BASE) [] []
              (Z.le_refl 0)) as (new & H1 & _ & H3 & _).
  destruct (fetch_loop get mp (Z.to_nat mp) 0
              (Some (if str_truthy q then (BASE ++ "?" ++ q)%string else BASE)) [] [])
    as [res seen].
  cbn [fst snd app] in *. subst seen.
  destruct res as [its|e]; [|discriminate H]. injection H as <- <-.
  destruct (H3 (ex_intro _ its eq_refl)) as [H4 H5]. injection H4 as H4.
  split; [reflexivity|]. split; assumption.
Qed.

Lemma azure_get_prices_count_witness :
  fst (azure_get_prices one_page_azure (Some "Virtual Machines") None None None None None 1)
    = Ok (1%nat, [mkAzItem (Some (Parsed (Fin 1)))]) /\
  1%nat = List.length [mkAzItem (Some (Parsed (Fin 1)))].
Proof.
  split; [reflexivity|].
  exact (proj1 (azure_get_prices_count one_page_azure (Some "Virtual Machines") None None None
                  None None 1 1%nat [mkAzItem (Some (Parsed (Fin 1)))] eq_refl)).
Defined.

(** ** The simplified view of [/aws/prices] *)

Lemma hourly_usd_spec (d : odim) (s : string) :
  hourly_usd d = Some s ->
  ousd d = Some s /\ str_truthy s = true /\
  String.prefix "hr" (match ounit d with Some u => lower u | None => "" end) = true.
Proof.
  unfold hourly_usd. destruct (ousd d) as [s'|]; [|discriminate].
  destruct (str_truthy s' && String.prefix "hr" _) eqn:E; [|discriminate].
  intro H. injection H as <-. apply andb_prop in E as [E1 E2]. auto.
Qed.

Lemma scan_dims_spec (ds : list (string * odim)) :
  (forall s, scan_dims ds = Some s -> exists dn d, In (dn, d) ds /\ hourly_usd d = Some s) /\
  (scan_dims ds = None -> forall dn d, In (dn, d) ds -> hourly_usd d = None).
Proof.
  induction ds as [|[dn d] ds [IH1 IH2]]; cbn [scan_dims].
  - split; [discriminate | intros _ dn d []].
  - destruct (hourly_usd d) as [s|] eqn:E.
    + split; [|discriminate]. intros s' H. injection H as <-. exists dn, d.
      split; [left; reflexivity | exact E].
    + split.
      * intros s H. destruct (IH1 s H) as (dn' & d' & Hin & Hs). exists dn', d'.
        split; [right; exact Hin | exact Hs].
      * intros H dn' d' [Heq|Hin]; [injection Heq as <- <-; exact E | exact (IH2 H dn' d' Hin)].
Qed.

Lemma scan_terms_spec (ts : list (string * list (string * odim))) :
  (forall s, scan_terms ts = Some s ->
     exists tn t dn d, In (tn, t) ts /\ In (dn, d) t /\ hourly_usd d = Some s) /\
  (scan_terms ts = None ->
     forall tn t dn d, In (tn, t) ts -> In (dn, d) t -> hourly_usd d = None).
Proof.
  induction ts as [|[tn t] ts [IH1 IH2]]; cbn [scan_terms].
  - split; [discriminate | intros _ tn t dn d []].
  - destruct (scan_dims_spec t) as [D1 D2]. destruct (scan_dims t) as [s|] eqn:E.
    + split; [|discriminate]. intros s' H. injection H as <-.
      destruct (D1 s eq_refl) as (dn & d & Hin & Hs). exists tn, t, dn, d.
      split; [left; reflexivity | split; assumption].
    + split.
      * intros s H. destruct (IH1 s H) as (tn' & t' & dn & d & H1 & H2 & H3).
        exists tn', t', dn, d. split; [right; exact H1 | split; assumption].
      * intros H tn' t' dn d [Heq|Hin] Hd.
        -- injection Heq as <- <-. exact (D2 eq_refl dn d Hd).
        -- exact (IH2 H tn' t' dn d Hin Hd).
Qed.

(** The hourly price of a row comes from an OnDemand dimension whose
    unit, lower-cased, starts with [hr] and whose USD string is non-empty,
    read by [float]; a row has no price only when no dimension qualifies.
    Its [sku] is the product's. *)
Theorem row_price_source : forall py_float o row,
  row_of py_float o = Some row ->
  row_sku row = sku o /\
  (forall f, ondemand_price_hour_usd row = Some f ->
     exists tn t dn d s, In (tn, t) (terms_ondemand o) /\ In (dn, d) t /\
       ousd d = Some s /\ str_truthy s = true /\
       String.prefix "hr" (match ounit d with Some u => lower u | None => "" end) = true /\
       py_float s = Some f) /\
  (ondemand_price_hour_usd row = None ->
     forall tn t dn d, In (tn, t) (terms_ondemand o) -> In (dn, d) t -> hourly_usd d = None).
Proof.
  intros py_float o row. unfold row_of.
  destruct (scan_terms_spec (terms_ondemand o)) as [T1 T2].
  destruct (scan_terms (terms_ondemand o)) as [s|] eqn:E.
  - destruct (py_float s) as [f|] eqn:Ef; cbn [option_map]; [|discriminate].
    intro H. injection H as <-. cbn [row_sku ondemand_price_hour_usd].
    split; [reflexivity|]. split; [|discriminate].
    intros f' Hf. injection Hf as <-.
    destruct (T1 s eq_refl) as (tn & t & dn & d & H1 & H2 & H3).
    destruct (hourly_usd_spec d s H3) as (H4 & H5 & H6).
    exists tn, t, dn, d, s. auto 7.
  - intro H. injection H as <-. cbn [row_sku ondemand_price_hour_usd].
    split; [reflexivity|]. split; [discriminate|]. intros _. exact (T2 eq_refl).
Qed.

Lemma row_price_source_witness :
  row_of sample_float sample_obj = Some sample_row /\
  ondemand_price_hour_usd sample_row = Some (Fin (104 # 10000)) /\
  exists tn t dn d s, In (tn, t) (terms_ondemand sample_obj) /\ In (dn, d) t /\
    ousd d = Some s /\ str_truthy s = true /\
    String.prefix "hr" (match ounit d with Some u => lower u | None => "" end) = true /\
    sample_float s = Some (Fin (104 # 10000)).
Proof.
  split; [reflexivity|]. split; [reflexivity|].
  apply (proj1 (proj2 (row_price_source sample_float sample_obj sample_row eq_refl))).
  reflexivity.
Defined.

Lemma row_of_none (py_float : string -> option pyfloat) (o : price_obj) :
  row_of py_float o = None <->
  exists s, scan_terms (terms_ondemand o) = Some s /\ py_float s = None.
Proof.
  unfold row_of. destruct (scan_terms (terms_ondemand o)) as [s|].
  - destruct (py_float s) eqn:E; cbn [option_map].
    + split; [discriminate|]. intros (s' & Hs & Hf). injection Hs as <-. congruence.
    + split; [intros _; exists s; auto | reflexivity].
  - split; [discriminate|]. intros (s & Hs & _). discriminate.
Qed.

(** The simplified view skips elements that do not decode, but one
    element whose hourly USD string [float] rejects makes the whole
    request fail: [parse_on_demand] fails exactly when some decodable
    element's first qualifying amount does not parse. *)
Theorem parse_on_demand_value_error : forall json_loads py_float items,
  parse_on_demand json_loads py_float items = None <->
  exists raw o s, In raw items /\ json_loads raw = Some o /\
    scan_terms (terms_ondemand o) = Some s /\ py_float s = None.
Proof.
  intros json_loads py_float items.
  induction items as [|raw r IH]; cbn [parse_on_demand].
  - split; [discriminate|]. intros (raw & o & s & [] & _).
  - destruct (json_loads raw) as [o|] eqn:J.
    + destruct (row_of py_float o) as [row|] eqn:R.
      * destruct (parse_on_demand json_loads py_float r) as [rows|] eqn:P; cbn [option_map].
        -- split; [discriminate|]. intros (raw' & o' & s & [<-|Hin] & H1 & H2 & H3).
           ++ rewrite J in H1. injection H1 as <-.
              assert (Hn : row_of py_float o = None) by (apply row_of_none; exists s; split; assumption).
              congruence.
           ++ discriminate (proj2 IH (ex_intro _ raw' (ex_intro _ o' (ex_intro _ s
                 (conj Hin (conj H1 (conj H2 H3))))))).
        -- split; [intros _ | reflexivity].
           destruct (proj1 IH eq_refl) as (raw' & o' & s & H1 & H2 & H3 & H4).
           exists raw', o', s. split; [right; exact H1|]. repeat split; assumption.
      * split; [intros _ | reflexivity].
        apply row_of_none in R as (s & Hs & Hf). exists raw, o, s.
        split; [left; reflexivity|]. repeat split; assumption.
    + rewrite IH. split; intros (raw' & o & s & Hin & H1 & H2 & H3).
      * exists raw', o, s. split; [right; exact Hin|]. repeat split; assumption.
      * destruct Hin as [<-|Hin]; [congruence|]. exists raw', o, s. repeat split; assumption.
Qed.

Lemma parse_on_demand_length (json_loads : string -> option price_obj)
    (py_float : string -> option pyfloat) :
  forall items rows, parse_on_demand json_loads py_float items = Some rows ->
  List.length rows = List.length (filter (fun raw => is_some (json_loads raw)) items).
Proof.
  induction items as [|raw r IH]; intros rows H; cbn [parse_on_demand] in H.
  - injection H as <-. reflexivity.
  - cbn [filter]. destruct (json_loads raw) as [o|]; cbn [is_some].
    + destruct (row_of py_float o); [|discriminate].
      destruct (parse_on_demand json_loads py_float r) as [rows'|] eqn:P; [|discriminate].
      cbn [option_map] in H. injection H as <-. cbn [List.length]. f_equal. apply IH. reflexivity.
    + apply IH, H.
Qed.

Lemma filter_length_le' {A} (f : A -> bool) (l : list A) :
  (List.length (filter f l) <= List.length l)%nat.
Proof.
  induction l as [|a l IH]; cbn [filter List.length]; [lia|]. destruct (f a); cbn [List.length]; lia.
Qed.

(** In the simplified view of [/aws/prices], [count] is the number of raw
    price list strings fetched, which exceeds the number of rows returned
    by the number of strings that do not decode. *)
Theorem aws_view_count : forall json_loads py_float pricing service_code region instance_type
    operating_system tenancy pre_installed_sw capacity_status max_pages n rows,
  aws_get_prices json_loads py_float pricing service_code region instance_type operating_system
    tenancy pre_installed_sw capacity_status max_pages false = Some (ViewBody n rows) ->
  let items := fst (get_products_paginated
                 (pricing service_code (build_filters (to_location region) instance_type
                    operating_system tenancy pre_installed_sw capacity_status)) max_pages) in
  n = List.length items /\
  List.length rows = List.length (filter (fun raw => is_some (json_loads raw)) items) /\
  (List.length rows <= n)%nat.
Proof.
  intros json_loads py_float pricing sc region it os ten pre cap mp n rows H items.
  unfold aws_get_prices in H. cbv zeta in H. fold items in H.
  destruct (parse_on_demand json_loads py_float items) as [rows'|] eqn:P; [|discriminate].
  cbn [option_map] in H. injection H as <- <-.
  rewrite (parse_on_demand_length json_loads py_float items rows' P).
  split; [reflexivity|]. split; [reflexivity|]. apply filter_length_le'.
Qed.

Lemma aws_view_count_witness :
  aws_get_prices sample_loads sample_float sample_pricing "AmazonEC2" (Some "us-west-2")
    (Some "t3.micro") None None None None 1 false = Some (ViewBody 2 [sample_row]) /\
  List.length [sample_row]
    = List.length (filter (fun raw => is_some (sample_loads raw)) ["item-1"; "not json"]) /\
  (List.length [sample_row] <= 2)%nat.
Proof.
  split; [reflexivity|].
  exact (proj2 (aws_view_count sample_loads sample_float sample_pricing "AmazonEC2"
                  (Some "us-west-2") (Some "t3.micro") None None None None 1 2 [sample_row]
                  eq_refl)).
Defined.

Lemma loads_all_none (json_loads : string -> option price_obj) (items : list string) :
  loads_all json_loads items = None <-> exists raw, In raw items /\ json_loads raw = None.
Proof.
  induction items as [|raw r IH]; cbn [loads_all].
  - split; [discriminate | intros (raw & [] & _)].
  - destruct (json_loads raw) eqn:J.
    + destruct (loads_all json_loads r) eqn:L; cbn [option_map].
      * split; [discriminate|]. intros (raw' & [<-|Hin] & H); [congruence|].
        discriminate (proj2 IH (ex_intro _ raw' (conj Hin H))).
      * split; [intros _ | reflexivity]. destruct (proj1 IH eq_refl) as (raw' & H1 & H2).
        exists raw'. split; [right|]; assumption.
    + split; [intros _; exists raw; split; [left; reflexivity | exact J] | reflexivity].
Qed.

Lemma loads_all_length (json_loads : string -> option price_obj) :
  forall items objs, loads_all json_loads items = Some objs -> List.length objs = List.length items.
Proof.
  induction items as [|raw r IH]; intros objs H; cbn [loads_all] in H.
  - injection H as <-. reflexivity.
  - destruct (json_loads raw); [|discriminate].
    destruct (loads_all json_loads r) as [objs'|] eqn:L; [|discriminate].
    cbn [option_map] in H. injection H as <-. cbn [List.length]. f_equal. apply IH. reflexivity.
Qed.

Lemma loads_all_decoded (json_loads : string -> option price_obj) :
  forall items objs, loads_all json_loads items = Some objs ->
  map Some objs = map json_loads items.
Proof.
  induction items as [|raw r IH]; intros objs H; cbn [loads_all] in H.
  - injection H as <-. reflexivity.
  - destruct (json_loads raw) as [o|] eqn:J; [|discriminate].
    destruct (loads_all json_loads r) as [objs'|] eqn:L; [|discriminate].
    cbn [option_map] in H. injection H as <-. cbn [map]. rewrite J, (IH objs' eq_refl).
    reflexivity.
Qed.

(** The raw view of [/aws/prices] has no [JSONDecodeError] handler: it
    fails as soon as one fetched string does not decode, and otherwise
    returns every string decoded by [json.loads], in order, [count] being
    their number. *)
Theorem aws_raw_decode : forall json_loads py_float pricing service_code region instance_type
    operating_system tenancy pre_installed_sw capacity_status max_pages,
  let items := fst (get_products_paginated
                 (pricing service_code (build_filters (to_location region) instance_type
                    operating_system tenancy pre_installed_sw capacity_status)) max_pages) in
  let r := aws_get_prices json_loads py_float pricing service_code region instance_type
             operating_system tenancy pre_installed_sw capacity_status max_pages true in
  (r = None <-> exists raw, In raw items /\ json_loads raw = None) /\
  (forall body, r = Some body ->
     exists objs, body = RawBody (List.length items) objs /\
       map Some objs = map json_loads items /\
       List.length objs = List.length items).
Proof.
  intros json_loads py_float pricing sc region it os ten pre cap mp items r.
  assert (Hr : r = option_map (RawBody (List.length items)) (loads_all json_loads items))
    by reflexivity.
  clearbody r. subst r. split.
  - rewrite <- loads_all_none. destruct (loads_all json_loads items); cbn [option_map].
    + split; discriminate.
    + split; reflexivity.
  - intros body H. destruct (loads_all json_loads items) as [objs|] eqn:L; [|discriminate].
    cbn [option_map] in H. injection H as <-. exists objs. split; [reflexivity|].
    split; [exact (loads_all_decoded json_loads items objs L)|].
    apply (loads_all_length json_loads items objs L).
Qed.

(** ** The comparison routes as a whole *)

Lemma min_nonzero_or_none_in (l : list pyfloat) (x : pyfloat) :
  _min_nonzero_or_none l = Some x -> In x l.
Proof.
  unfold _min_nonzero_or_none. cbv zeta.
  destruct (filter (fun v => py_lt (Fin 0) v) l) as [|c cs] eqn:E.
  - destruct l as [|v vs]; [discriminate|]. intro H. injection H as <-.
    destruct (py_min_in vs v) as [H|H]; [rewrite H; left; reflexivity | right; exact H].
  - intro H. injection H as <-.
    assert (Hin : In (py_min c cs) (filter (fun v => py_lt (Fin 0) v) l)).
    { rewrite E. destruct (py_min_in cs c) as [H|H]; [left; symmetry; exact H | right; exact H]. }
    apply filter_In in Hin as [H1 _]. exact H1.
Qed.

(** A price a provider pipeline reports was read from a status-200
    response: it is one of the amounts of that response's items. A
    pipeline fails only with a client exception. *)
Theorem provider_price_origin :
  (forall aws_get q x, aws_eval aws_get q = Ok (Some x) ->
     exists items, aws_get q = Response 200 items /\ In x (flat_map aws_item_prices items)) /\
  (forall az_get q x, az_eval az_get q = Ok (Some x) ->
     exists items, az_get q = Response 200 items /\ In x (az_prices items)) /\
  (forall aws_get q e, aws_eval aws_get q = Err e ->
     e = ClientRaised /\ aws_get q = Transport_error) /\
  (forall az_get q e, az_eval az_get q = Err e ->
     e = ClientRaised /\ az_get q = Transport_error).
Proof.
  split; [|split; [|split]].
  - intros aws_get q x. unfold aws_eval. destruct (aws_get q) as [|st items]; [discriminate|].
    destruct (Z.eqb st 200) eqn:E; [|discriminate]. intro H. injection H as H.
    apply Z.eqb_eq in E. subst st. exists items. split; [reflexivity|].
    apply min_nonzero_or_none_in, H.
  - intros az_get q x. unfold az_eval. destruct (az_get q) as [|st items]; [discriminate|].
    destruct (Z.eqb st 200) eqn:E; [|discriminate]. intro H. injection H as H.
    apply Z.eqb_eq in E. subst st. exists items. split; [reflexivity|].
    apply min_nonzero_or_none_in, H.
  - intros aws_get q e. unfold aws_eval. destruct (aws_get q) as [|st items].
    + intro H. injection H as <-. split; reflexivity.
    + destruct (Z.eqb st 200); discriminate.
  - intros az_get q e. unfold az_eval. destruct (az_get q) as [|st items].
    + intro H. injection H as <-. split; reflexivity.
    + destruct (Z.eqb st 200); discriminate.
Qed.

Lemma errs_bind {A B} (P : exc -> Prop) (m : M A) (k : A -> M B) :
  errs_only P m -> (forall a, errs_only P (k a)) -> errs_only P (bind m k).
Proof.
  intros Hm Hk e. unfold bind. destruct (snd m) as [a|e'] eqn:E.
  - destruct (k a) as [l2 r] eqn:K. cbn [snd]. intro Hr. apply (Hk a e). rewrite K. exact Hr.
  - cbn [snd]. intro H. injection H as <-. apply Hm. exact E.
Qed.

Lemma errs_ret {A} (P : exc -> Prop) (a : A) : errs_only P (ret a).
Proof. intros e H. discriminate H. Qed.

Lemma errs_raise {A} (P : exc -> Prop) (e : exc) : P e -> errs_only P (@raise A e).
Proof. intros He e' H. injection H as <-. exact He. Qed.

Lemma errs_aws (P : exc -> Prop) aws_get ps :
  P ClientRaised -> errs_only P (_min_price_from_aws aws_get ps).
Proof.
  intros HP e. unfold _min_price_from_aws, tell, lift. cbn [bind fst snd app].
  unfold aws_eval. destruct (aws_get _) as [|st items].
  - intro H. injection H as <-. exact HP.
  - destruct (Z.eqb st 200); discriminate.
Qed.

Lemma errs_az (P : exc -> Prop) az_get ps :
  P ClientRaised -> errs_only P (_min_price_from_azure az_get ps).
Proof.
  intros HP e. unfold _min_price_from_azure, tell, lift. cbn [bind fst snd app].
  unfold az_eval. destruct (az_get _) as [|st items].
  - intro H. injection H as <-. exact HP.
  - destruct (Z.eqb st 200); discriminate.
Qed.

Ltac errs_step :=
  first
    [ apply errs_ret
    | apply errs_aws; left; reflexivity
    | apply errs_az; left; reflexivity
    | apply errs_raise; right; split; [reflexivity | eexists; eexists; reflexivity]
    | apply errs_bind; [|intro]
    | match goal with |- errs_only _ (match ?x with _ => _ end) => destruct x end ].

(** No comparison route answers with an HTTP error of a provider
    endpoint: a route fails only with FastAPI's 422, a client exception,
    or, on the block-storage route alone, the 404 of no price on either
    side. *)
Theorem route_errors : forall aws_get az_get r region azure_region max_pages e,
  snd (handle aws_get az_get r region azure_region max_pages) = Err e ->
  e = ClientRaised \/ e = HTTPError 422 \/
  (e = HTTPError 404 /\ exists v s, r = RBlockStorage v s).
Proof.
  intros aws_get az_get r region azure_region max_pages e H.
  unfold handle, validated in H.
  destruct (Z.leb 1 max_pages && Z.leb max_pages (max_pages_le r)).
  - assert (Hb : errs_only (fun e => e = ClientRaised \/
                              (e = HTTPError 404 /\ exists v s, r = RBlockStorage v s))
                   (endpoint_body aws_get az_get r region azure_region max_pages)).
    { destruct r; unfold endpoint_body, compare_service, compare_db_sql, compare_egress,
        compare_block_storage, compare_load_balancer, compare_dns, az_coverage; cbv zeta;
        repeat errs_step. }
    destruct (Hb e H) as [He|He]; [left; exact He | right; right; exact He].
  - cbn [raise snd] in H. injection H as <-. right; left; reflexivity.
Qed.

Lemma route_errors_witness :
  snd (handle aws_down az_down (RBlockStorage (Some "gp3") None) "us-west-2" None 1)
    = Err (HTTPError 404) /\
  (HTTPError 404 = ClientRaised \/ HTTPError 404 = HTTPError 422 \/
   (HTTPError 404 = HTTPError 404 /\
    exists v s, RBlockStorage (Some "gp3") None = RBlockStorage v s)).
Proof.
  split; [reflexivity|].
  apply (route_errors aws_down az_down (RBlockStorage (Some "gp3") None) "us-west-2" None 1).
  reflexivity.
Defined.

Ltac run_all :=
  run_endpoint;
  repeat (match goal with
          | |- context [aws_eval ?g ?q] => destruct (aws_eval g q)
          | |- context [az_eval ?g ?q] => destruct (az_eval g q)
          | |- context [match ?x with Some _ => _ | None => _ end] => destruct x
          | |- context [let (_, _) := ?x in _] => destruct x
          end; cbn [bind fst snd app] in *).

(** A request to a comparison route issues at most four provider calls:
    two for egress, block storage, load balancer, DNS and the storage
    comparison, three for the VM and database comparisons (with the
    broadened Azure query), four for coverage; once past validation, the
    first call always goes to the AWS endpoint. *)
Theorem route_call_count : forall aws_get az_get r region azure_region max_pages,
  let calls := fst (handle aws_get az_get r region azure_region max_pages) in
  (List.length calls <=
     match r with
     | RService Vm _ _ | RDbSql _ _ _ _ => 3
     | RAzCoverage => 4
     | _ => 2
     end)%nat /\
  ((1 <= max_pages <= max_pages_le r)%Z -> exists q rest, calls = AwsCall q :: rest).
Proof.
  intros aws_get az_get r region azure_region max_pages calls. subst calls.
  unfold handle, validated.
  destruct (Z.leb 1 max_pages && Z.leb max_pages (max_pages_le r)) eqn:V.
  - destruct r as [st it sku|e d l s| |v s| | |]; [destruct st| | | | | |];
      unfold endpoint_body, compare_service, compare_db_sql, compare_egress,
        compare_block_storage, compare_load_balancer, compare_dns, az_coverage; cbv zeta;
      run_all; (split; [cbn [List.length]; lia | intros _; eexists; eexists; reflexivity]).
  - split; [cbn [raise fst List.length]; destruct r as [[]| | | | | |]; lia|].
    intros [H1 H2]. apply Z.leb_le in H1, H2. rewrite H1, H2 in V. discriminate.
Qed.

(** ** Accounts and tokens *)

Lemma filter_idem {A} (f : A -> bool) (l : list A) : filter f (filter f l) = filter f l.
Proof.
  induction l as [|a l IH]; [reflexivity|]. cbn [filter].
  destruct (f a) eqn:E; cbn [filter]; [rewrite E, IH | rewrite IH]; reflexivity.
Qed.

Lemma filter_sub {A} (f g : A -> bool) (l : list A) :
  (forall x, f x = true -> g x = true) -> filter f (filter g l) = filter f l.
Proof.
  intro Hfg. induction l as [|a l IH]; [reflexivity|]. cbn [filter].
  destruct (g a) eqn:G; cbn [filter]; destruct (f a) eqn:F; try rewrite IH; try reflexivity.
  rewrite (Hfg a F) in G. discriminate.
Qed.

Lemma string_length_las (s : string) :
  String.length s = List.length (list_ascii_of_string s).
Proof. induction s as [|c s IH]; cbn; [reflexivity | rewrite IH; reflexivity]. Qed.

Lemma string_of_list_ascii_app' (a b : list ascii) :
  string_of_list_ascii (a ++ b) = (string_of_list_ascii a ++ string_of_list_ascii b)%string.
Proof. induction a as [|c a IH]; cbn; [reflexivity | rewrite IH; reflexivity]. Qed.

Lemma word_char_password_char (c : ascii) : is_word_char c = true -> is_password_char c = true.
Proof. intro H. unfold is_password_char. rewrite H. reflexivity. Qed.

(** On ASCII text, [sanitize_input] keeps exactly the word characters:
    it works character by character (the result on a concatenation is
    the concatenation of the results), keeping a word character and
    dropping any other; its output is made of word characters only, it is
    idempotent and erases its input's other characters (["a b"] and
    ["ab"] are the same account); [sanitize_password] keeps a superset, and
    a password sanitized by it loses nothing more to [sanitize_input]. *)
Theorem sanitize_properties : forall s,
  is_ascii_text s = true ->
  (forall s1 s2, s = (s1 ++ s2)%string ->
     sanitize_input s = (sanitize_input s1 ++ sanitize_input s2)%string) /\
  (forall c, In c (list_ascii_of_string s) ->
     sanitize_input (String c "") = if is_word_char c then String c "" else "") /\
  forallb is_word_char (list_ascii_of_string (sanitize_input s)) = true /\
  sanitize_input (sanitize_input s) = sanitize_input s /\
  sanitize_password (sanitize_password s) = sanitize_password s /\
  sanitize_input (sanitize_password s) = sanitize_input s /\
  (String.length (sanitize_input s) <= String.length (sanitize_password s) <= String.length s)%nat.
Proof.
  intros s _.
  split; [intros s1 s2 ->; unfold sanitize_input;
          rewrite list_ascii_of_string_app', filter_app; apply string_of_list_ascii_app'|].
  split; [intros c _; unfold sanitize_input; cbn [list_ascii_of_string filter];
          destruct (is_word_char c); reflexivity|].
  unfold sanitize_input, sanitize_password.
  rewrite !list_ascii_of_string_of_list_ascii.
  split; [apply forallb_forall; intros c Hc; apply filter_In in Hc as [_ Hc]; exact Hc|].
  split; [rewrite filter_idem; reflexivity|].
  split; [rewrite filter_idem; reflexivity|].
  split; [rewrite filter_sub by exact word_char_password_char; reflexivity|].
  rewrite !string_length_las, !list_ascii_of_string_of_list_ascii.
  rewrite <- (filter_sub is_word_char is_password_char (list_ascii_of_string s)
                word_char_password_char).
  split; apply filter_length_le'.
Qed.

Lemma sanitize_properties_witness :
  is_ascii_text "a b!" = true /\
  sanitize_input (sanitize_password "a b!") = sanitize_input "a b!".
Proof.
  split; [reflexivity|].
  exact (proj1 (proj2 (proj2 (proj2 (proj2 (proj2 (sanitize_properties "a b!" eq_refl))))))).
Defined.

Lemma find_one_app (us : users) (x h : string) :
  find_one us x = None -> find_one (us ++ [(x, h)])%list x = Some h.
Proof.
  induction us as [|[u h'] us IH]; cbn [find_one app].
  - intros _. rewrite String.eqb_refl. reflexivity.
  - destruct (String.eqb x u); [discriminate | exact IH].
Qed.

(** Account round trip, given that [checkpw] accepts a password against
    its own hash: after creating an account under a free sanitized name,
    any name and password that sanitize to the same strings log in, and
    the token carries the name as entered at login (not the account's)
    with an expiry 30 minutes ahead; creating the same account again
    fails with the wrapped 400. *)
Theorem create_then_login : forall checkpw hashpw jwt_encode now us u p u' p',
  (forall x, checkpw x (hashpw x) = true) ->
  find_one us (sanitize_input u) = None ->
  sanitize_input u' = sanitize_input u ->
  sanitize_password p' = sanitize_password p ->
  let us' := fst (create_user hashpw us u p) in
  snd (create_user hashpw us u p) = Done "User created successfully" /\
  login_for_access_token checkpw jwt_encode now us' u' p'
    = Done (mkToken (jwt_encode [("user", JStr u'); ("exp", JNum (inject_Z (now + 1800)))])
              "bearer") /\
  snd (create_user hashpw us' u' p')
    = Raised (mkHttpError 500 "Unable to create user: 400: Username already exists").
Proof.
  intros checkpw hashpw jwt_encode now us u p u' p' Hpw Hfree Hu Hp us'.
  assert (Hus : us' = (us ++ [(sanitize_input u, hashpw (sanitize_password p))])%list).
  { subst us'. unfold create_user, sanitize_login_input. rewrite Hfree. reflexivity. }
  split; [unfold create_user, sanitize_login_input; rewrite Hfree; reflexivity|].
  rewrite Hus. split.
  - unfold login_for_access_token, sanitize_login_input, authenticate_user, verify_password.
    rewrite Hu, Hp, (find_one_app us _ _ Hfree), Hpw. reflexivity.
  - unfold create_user, sanitize_login_input. rewrite Hu, (find_one_app us _ _ Hfree).
    reflexivity.
Qed.

Lemma create_then_login_witness :
  (forall x, plain_checkpw x (plain_hashpw x) = true) /\
  find_one [] (sanitize_input "a b") = None /\
  sanitize_input "ab" = sanitize_input "a b" /\
  sanitize_password "pw" = sanitize_password "p w" /\
  login_for_access_token plain_checkpw sample_encode 0
    (fst (create_user plain_hashpw [] "a b" "p w")) "ab" "pw"
    = Done (mkToken (sample_encode [("user", JStr "ab"); ("exp", JNum (inject_Z (0 + 1800)))])
              "bearer").
Proof.
  assert (Hpw : forall x, plain_checkpw x (plain_hashpw x) = true)
    by (intro x; apply String.eqb_refl).
  split; [exact Hpw|]. split; [reflexivity|]. split; [reflexivity|]. split; [reflexivity|].
  exact (proj1 (proj2 (create_then_login plain_checkpw plain_hashpw sample_encode 0 []
                         "a b" "p w" "ab" "pw" Hpw eq_refl eq_refl eq_refl))).
Defined.

(** A token issued by [POST /token] is a bearer token that
    [validate_jwt] accepts (while [jwt.decode] reads back the user it was
    issued for) exactly when the username entered at login is non-empty. *)
Theorem login_token_validates : forall checkpw jwt_encode jwt_decode now us u p t,
  (forall user e, exists pl,
     jwt_decode (jwt_encode [("user", JStr user); ("exp", e)]) = Payload pl /\
     payload_get pl "user" = Some (JStr user)) ->
  login_for_access_token checkpw jwt_encode now us u p = Done t ->
  token_type t = "bearer" /\
  (validate_jwt jwt_decode (access_token t) = Done true <-> str_truthy u = true).
Proof.
  intros checkpw jwt_encode jwt_decode now us u p t Hdec H.
  unfold login_for_access_token, sanitize_login_input in H.
  destruct (authenticate_user checkpw us (sanitize_input u) (sanitize_password p));
    cbn [negb] in H; [|discriminate].
  injection H as <-. cbn [token_type access_token]. split; [reflexivity|].
  unfold generate_jwt_token, validate_jwt. cbv zeta. cbn [payload_set].
  match goal with
  | |- context [jwt_encode ?pl] =>
      replace pl with [("user", JStr u); ("exp", JNum (inject_Z (now + 1800)))]
        by reflexivity
  end.
  destruct (Hdec u (JNum (inject_Z (now + 1800)))) as (pl & H1 & H2).
  rewrite H1, H2. cbn [jtruthy].
  destruct (str_truthy u); split; intro H; first [reflexivity | discriminate H].
Qed.

Lemma login_token_validates_witness :
  (forall user e, exists pl,
     sample_decode (sample_encode [("user", JStr user); ("exp", e)]) = Payload pl /\
     payload_get pl "user" = Some (JStr user)) /\
  login_for_access_token plain_checkpw sample_encode 0 [("ab", "pw")] "ab" "pw"
    = Done (mkToken "ab" "bearer") /\
  validate_jwt sample_decode "ab" = Done true.
Proof.
  assert (Hdec : forall user e, exists pl,
     sample_decode (sample_encode [("user", JStr user); ("exp", e)]) = Payload pl /\
     payload_get pl "user" = Some (JStr user))
    by (intros user e; eexists; split; reflexivity).
  split; [exact Hdec|]. split; [reflexivity|].
  apply (proj2 (login_token_validates plain_checkpw sample_encode sample_decode 0
                  [("ab", "pw")] "ab" "pw" (mkToken "ab" "bearer") Hdec eq_refl)).
  reflexivity.
Defined.

(** ** The account store *)

Lemma find_one_app_found (us extra : users) (x h : string) :
  find_one us x = Some h -> find_one (us ++ extra)%list x = Some h.
Proof.
  induction us as [|[n h'] us IH]; cbn [find_one app]; [discriminate|].
  destruct (String.eqb x n); [exact (fun H => H) | exact IH].
Qed.

Lemma find_one_absent (us : users) (x : string) :
  find_one us x = None -> ~ In x (map fst us).
Proof.
  induction us as [|[n h] us IH]; cbn [find_one map fst]; intro H; [intros []|].
  destruct (String.eqb x n) eqn:E; [discriminate H|].
  intros [Heq|Hin]; [|exact (IH H Hin)].
  subst n. rewrite String.eqb_refl in E. discriminate E.
Qed.

Lemma names_snoc_nodup (names : list string) (x : string) :
  NoDup names -> ~ In x names -> NoDup (names ++ [x])%list.
Proof.
  revert x. induction names as [|n names IH]; intros x Hnd Hout; cbn [app].
  - apply NoDup_cons; [intros []|apply NoDup_nil].
  - apply NoDup_cons_iff in Hnd as [Hn Hnames]. apply NoDup_cons.
    + rewrite in_app_iff. intros [H|[H|[]]]; [exact (Hn H)|].
      apply Hout. left. symmetry. exact H.
    + apply IH; [exact Hnames|]. intro H. apply Hout. right. exact H.
Qed.

Lemma sanitize_input_idem (s : string) : sanitize_input (sanitize_input s) = sanitize_input s.
Proof.
  unfold sanitize_input. rewrite list_ascii_of_string_of_list_ascii, filter_idem. reflexivity.
Qed.

(** [POST /user/create] keeps the store well formed: if the stored
    usernames are distinct and already sanitized, they still are after the
    request, whatever its form; no account is removed or overwritten (every
    name found before is found with the same hash), and the store only
    grows at its end, by one account at most. *)
Theorem create_user_store_invariant : forall hashpw us u p,
  NoDup (map fst us) ->
  Forall (fun n => sanitize_input n = n) (map fst us) ->
  let us' := fst (create_user hashpw us u p) in
  NoDup (map fst us') /\
  Forall (fun n => sanitize_input n = n) (map fst us') /\
  (forall x h, find_one us x = Some h -> find_one us' x = Some h) /\
  (exists extra, us' = (us ++ extra)%list /\ (List.length extra <= 1)%nat).
Proof.
  intros hashpw us u p Hnd Hsan us'.
  assert (Hus : us' = match find_one us (sanitize_input u) with
                      | Some _ => us
                      | None => (us ++ [(sanitize_input u, hashpw (sanitize_password p))])%list
                      end).
  { subst us'. unfold create_user, sanitize_login_input.
    destruct (find_one us (sanitize_input u)); reflexivity. }
  clearbody us'. destruct (find_one us (sanitize_input u)) eqn:F; subst us'.
  - split; [exact Hnd|]. split; [exact Hsan|]. split; [intros x h H; exact H|].
    exists []. split; [symmetry; apply app_nil_r | cbn; lia].
  - rewrite map_app. cbn [map fst]. split.
    + apply names_snoc_nodup; [exact Hnd | apply find_one_absent, F].
    + split; [apply Forall_app; split; [exact Hsan|]; apply Forall_cons;
              [apply sanitize_input_idem | apply Forall_nil]|].
      split; [intros x h H; apply find_one_app_found, H|].
      eexists. split; [reflexivity | cbn; lia].
Qed.

Lemma create_user_store_invariant_witness :
  NoDup (map fst [("ab", "h")]) /\
  Forall (fun n => sanitize_input n = n) (map fst [("ab", "h")]) /\
  NoDup (map fst (fst (create_user plain_hashpw [("ab", "h")] "c d" "x"))).
Proof.
  assert (H1 : NoDup (map fst [("ab", "h")])) by (apply NoDup_cons; [intros []|apply NoDup_nil]).
  assert (H2 : Forall (fun n => sanitize_input n = n) (map fst [("ab", "h")]))
    by (apply Forall_cons; [reflexivity | apply Forall_nil]).
  split; [exact H1|]. split; [exact H2|].
  exact (proj1 (create_user_store_invariant plain_hashpw [("ab", "h")] "c d" "x" H1 H2)).
Defined.

(** ** From the login to the guarded routes *)

Lemma login_token_shape (checkpw : string -> string -> bool) (jwt_encode : payload -> string)
    (now : Z) (us : users) (u p : string) (t : token) :
  login_for_access_token checkpw jwt_encode now us u p = Done t ->
  t = mkToken (jwt_encode [("user", JStr u); ("exp", JNum (inject_Z (now + 1800)))]) "bearer".
Proof.
  unfold login_for_access_token, sanitize_login_input.
  destruct (authenticate_user checkpw us (sanitize_input u) (sanitize_password p));
    cbn [negb]; intro H; [|discriminate H].
  injection H as <-. reflexivity.
Qed.

(** A token issued by [POST /token] opens every comparison route when the
    username entered at login is non-empty (while [jwt.decode] reads back
    the user it was issued for): the route then runs exactly as without the
    guard. For an empty username the token is refused with a 401 and no
    provider is called. *)
Theorem login_opens_routes : forall checkpw jwt_encode jwt_decode now us u p t
    aws_get az_get r region azure_region max_pages,
  (forall user e, exists pl,
     jwt_decode (jwt_encode [("user", JStr user); ("exp", e)]) = Payload pl /\
     payload_get pl "user" = Some (JStr user)) ->
  login_for_access_token checkpw jwt_encode now us u p = Done t ->
  protected_handle jwt_decode (Some (access_token t)) aws_get az_get r region azure_region
    max_pages
    = if str_truthy u then handle aws_get az_get r region azure_region max_pages
      else ([], Err (HTTPError 401)).
Proof.
  intros checkpw jwt_encode jwt_decode now us u p t aws_get az_get r region azure_region
    max_pages Hdec H.
  rewrite (login_token_shape checkpw jwt_encode now us u p t H). cbn [access_token].
  unfold protected_handle, validate_jwt.
  destruct (Hdec u (JNum (inject_Z (now + 1800)))) as (pl & H1 & H2).
  rewrite H1, H2. cbn [jtruthy]. destruct (str_truthy u); reflexivity.
Qed.

Lemma login_opens_routes_witness :
  (forall user e, exists pl,
     sample_decode (sample_encode [("user", JStr user); ("exp", e)]) = Payload pl /\
     payload_get pl "user" = Some (JStr user)) /\
  login_for_access_token plain_checkpw sample_encode 0 [("ab", "pw")] "ab" "pw"
    = Done (mkToken "ab" "bearer") /\
  protected_handle sample_decode (Some "ab") aws_down az_down (RBlockStorage (Some "gp3") None)
    "us-west-2" None 1
    = handle aws_down az_down (RBlockStorage (Some "gp3") None) "us-west-2" None 1.
Proof.
  assert (Hdec : forall user e, exists pl,
     sample_decode (sample_encode [("user", JStr user); ("exp", e)]) = Payload pl /\
     payload_get pl "user" = Some (JStr user))
    by (intros user e; eexists; split; reflexivity).
  split; [exact Hdec|]. split; [reflexivity|].
  exact (login_opens_routes plain_checkpw sample_encode sample_decode 0 [("ab", "pw")] "ab" "pw"
           (mkToken "ab" "bearer") aws_down az_down (RBlockStorage (Some "gp3") None)
           "us-west-2" None 1 Hdec eq_refl).
Defined.
